(** * unlibmd: retrieval and extraction of UN Digital Library records

    A shallow embedding of [src/unlibmd.py].  Python values are modelled by
    the inductive [PyVal], dictionaries by insertion-ordered association
    lists, exceptions by the [outcome] type, and the network, the clock and
    the credential file by an explicit [World] threaded through the
    fetchers. *)

From Stdlib Require Import String Ascii List ZArith Lia Bool DecimalString.
Import ListNotations.
Open Scope string_scope.
Open Scope Z_scope.

Set Implicit Arguments.
Set Warnings "-register-all".

(** ** Python strings

    A [string] stands for a Python [str] whose code points are below 256. *)

Module PyStr.

(** [str.isspace] on one code point below 256: TAB..CR, FS..US, the blank,
    NEL (133) and the no-break space (160). *)
Definition isspace (c : ascii) : bool :=
  let n := nat_of_ascii c in
  ((9 <=? n) && (n <=? 13) || (28 <=? n) && (n <=? 32)
   || (n =? 133) || (n =? 160))%nat.

Fixpoint lstrip (s : string) : string :=
  match s with
  | String c s' => if isspace c then lstrip s' else s
  | EmptyString => EmptyString
  end.

Fixpoint rstrip (s : string) : string :=
  match s with
  | String c s' =>
      match rstrip s' with
      | EmptyString => if isspace c then EmptyString else String c EmptyString
      | r => String c r
      end
  | EmptyString => EmptyString
  end.

(** [s.strip()] *)
Definition strip (s : string) : string := rstrip (lstrip s).

(** [s.startswith(p)] *)
Definition startswith (s p : string) : bool := String.prefix p s.

(** Scan of [str.replace] for a non-empty pattern: [skip] counts the
    characters of the occurrence found last that are still to be dropped. *)
Fixpoint replace_scan (old new : string) (skip : nat) (s : string) : string :=
  match s with
  | EmptyString => EmptyString
  | String c s' =>
      match skip with
      | S k => replace_scan old new k s'
      | O =>
          if String.prefix old s
          then new ++ replace_scan old new (String.length old - 1) s'
          else String c (replace_scan old new 0 s')
      end
  end.

(** With an empty pattern Python puts [new] around every character. *)
Fixpoint intersperse (new s : string) : string :=
  match s with
  | EmptyString => new
  | String c s' => new ++ String c (intersperse new s')
  end.

(** [s.replace(old, new)]: every occurrence, left to right, not
    overlapping. *)
Definition replace (s old new : string) : string :=
  match old with
  | EmptyString => intersperse new s
  | _ => replace_scan old new 0 s
  end.

(** [sub in s] on two strings. *)
Fixpoint contains (s sub : string) : bool :=
  String.prefix sub s ||
  match s with
  | String _ s' => contains s' sub
  | EmptyString => false
  end.

(** [str(n)] and [f"{n}"] on an integer. *)
Definition of_int (n : Z) : string := NilZero.string_of_int (Z.to_int n).

Definition isdigit (c : ascii) : bool :=
  let n := nat_of_ascii c in ((48 <=? n) && (n <=? 57))%nat.

Definition digit (c : ascii) : Z := Z.of_nat (nat_of_ascii c) - 48.

(** Digits of a decimal literal; a single underscore may separate two
    digits.  [prev] tells whether the previous character was a digit. *)
Fixpoint digits (acc : Z) (prev : bool) (s : string) : option Z :=
  match s with
  | EmptyString => if prev then Some acc else None
  | String c s' =>
      if isdigit c then digits (10 * acc + digit c) true s'
      else if (Ascii.eqb c "_" && prev)%bool then
             match s' with
             | String d _ => if isdigit d then digits acc false s' else None
             | EmptyString => None
             end
           else None
  end.

(** [int(s)] on a string, base ten: blanks around, one optional sign.
    [None] stands for [ValueError]. *)
Definition to_int (s : string) : option Z :=
  match strip s with
  | String "-" r => option_map Z.opp (digits 0 false r)
  | String "+" r => digits 0 false r
  | r => digits 0 false r
  end.

End PyStr.


(** ** Python values, exceptions and dictionaries *)

(** A dictionary key: a string, or [None] (an attribute that is missing). *)
Definition key := option string.

Inductive PyVal : Type :=
| PNone
| PInt (n : Z)
| PStr (s : string)
| PList (items : list PyVal)
| PDict (entries : list (key * PyVal)).

Inductive exn : Type :=
| KeyError (k : string)
| TypeError
| ValueError
| AttributeError
| ZeroDivisionError
| SyntaxError
| ExpatError
| FileNotFoundError
| RequestException (msg : string).

Inductive outcome (A : Type) : Type :=
| Return (a : A)
| Raise (e : exn).
Arguments Raise {A} e.

Definition bind {A B} (x : outcome A) (f : A -> outcome B) : outcome B :=
  match x with
  | Return a => f a
  | Raise e => Raise e
  end.

Declare Scope py_scope.
Delimit Scope py_scope with py.
Notation "'let*' x ':=' c1 'in' c2" := (bind c1 (fun x => c2))
  (at level 61, x pattern, c1 at next level, right associativity) : py_scope.

(** Insertion-ordered dictionaries: [d[k] = v] overwrites the value of an
    existing key where it stands and appends a new key at the end. *)
Section Dict.
Variables K V : Type.
Variable eqb : K -> K -> bool.

Definition dict := list (K * V).

Fixpoint dict_get (k : K) (d : dict) : option V :=
  match d with
  | [] => None
  | (k', v) :: d' => if eqb k k' then Some v else dict_get k d'
  end.

Fixpoint dict_set (k : K) (v : V) (d : dict) : dict :=
  match d with
  | [] => [(k, v)]
  | (k', v') :: d' =>
      if eqb k k' then (k', v) :: d' else (k', v') :: dict_set k v d'
  end.

Definition dict_mem (k : K) (d : dict) : bool :=
  match dict_get k d with Some _ => true | None => false end.
End Dict.

Definition key_eqb (a b : key) : bool :=
  match a, b with
  | Some x, Some y => String.eqb x y
  | None, None => true
  | _, _ => false
  end.

(** [None] for a missing text, the string otherwise. *)
Definition of_text (t : option string) : PyVal :=
  match t with
  | Some s => PStr s
  | None => PNone
  end.

(** Truth value of an optional string: [None] and [""] are false. *)
Definition truthy (t : option string) : bool :=
  match t with
  | Some s => negb (String.eqb s "")
  | None => false
  end.

(** [f"{x}"] on an optional string. *)
Definition fmt (t : option string) : string :=
  match t with
  | Some s => s
  | None => "None"
  end.

(** ** Post-processing: [convert_me_id] *)

Fixpoint first_dhl (column_value : list PyVal) : PyVal :=
  match column_value with
  | [] => PNone
  | PStr value :: rest =>
      if PyStr.startswith value "(DHL)"
      then PStr (PyStr.strip (PyStr.replace value "(DHL)" ""))
      else first_dhl rest
  | _ :: rest => first_dhl rest
  end.

Definition convert_me_id (column_value : PyVal) : PyVal :=
  match column_value with
  | PList l => first_dhl l
  | _ => column_value
  end.

(** What the docstring of [convert_me_id] and the specification describe:
    only the leading ["(DHL)"] is removed. *)
Definition remove_prefix (value p : string) : string :=
  String.substring (String.length p) (String.length value - String.length p) value.

Fixpoint first_dhl_documented (column_value : list PyVal) : PyVal :=
  match column_value with
  | [] => PNone
  | PStr value :: rest =>
      if PyStr.startswith value "(DHL)"
      then PStr (PyStr.strip (remove_prefix value "(DHL)"))
      else first_dhl_documented rest
  | _ :: rest => first_dhl_documented rest
  end.

Definition convert_me_id_documented (column_value : PyVal) : PyVal :=
  match column_value with
  | PList l => first_dhl_documented l
  | _ => column_value
  end.

(** ** Query compiler: [get_query] *)

(** One rule of the caller: a dictionary with the five keys below, every
    key present and [None] standing for a value that is not given. *)
Record FieldSpec : Type := {
  field : string;           (* element["field"] *)
  element : string;         (* element["element"]: "field" or "subfield" *)
  code : option string;     (* element["code"], may be None *)
  ind1 : option string;     (* element["ind1"], may be None *)
  name : string             (* element["name"] *)
}.

(** The specification with its ["query"] entry. *)
Record CompiledQuery : Type := {
  spec : FieldSpec;
  query : string
}.

Definition field_selector (e : FieldSpec) : string :=
  let query := "datafield[@tag='" ++ field e ++ "']" in
  if truthy (ind1 e)
  then query ++ "[@ind1='" ++ fmt (ind1 e) ++ "']"
  else query.

Definition get_query (e : FieldSpec) : CompiledQuery :=
  let query := field_selector e in
  let query :=
    if truthy (code e) || key_eqb (code e) (Some "")
    then query ++ "/subfield[@code='" ++ fmt (code e) ++ "']"
    else query in
  {| spec := e; query := query |}.

(** ** Records: XML elements *)

Inductive Element : Type :=
| Elem (tag : string) (attrib : list (string * string))
       (text : option string) (children : list Element).

Definition tag (e : Element) : string :=
  match e with Elem t _ _ _ => t end.
Definition attrib (e : Element) : list (string * string) :=
  match e with Elem _ a _ _ => a end.
Definition text (e : Element) : option string :=
  match e with Elem _ _ t _ => t end.
Definition children (e : Element) : list Element :=
  match e with Elem _ _ _ c => c end.

(** [e.get(a)] *)
Definition get (e : Element) (a : string) : key :=
  dict_get String.eqb a (attrib e).

(** Every element below [e], in document order. *)
Fixpoint descendants (e : Element) : list Element :=
  match e with
  | Elem _ _ _ cs => flat_map (fun c => c :: descendants c) cs
  end.

(** [e.xpath(".//subfield")] *)
Definition xpath_subfields (e : Element) : list Element :=
  filter (fun d => String.eqb (tag d) "subfield") (descendants e).

(** [{e.get("code"): e.text for e in datafield.xpath(".//subfield")}] *)
Definition code_value (datafield : Element) : PyVal :=
  PDict (fold_left
           (fun d e => dict_set key_eqb (get e "code") (of_text (text e)) d)
           (xpath_subfields datafield) []).

(** ** Record extractor: [extract_xml] *)

Section Extractor.

(** [record.findall(path)] of the XML library: the elements the path
    selects, in document order, or [SyntaxError] on a path it cannot
    read. *)
Variable findall : Element -> string -> outcome (list Element).

(** [record.find(path)]: the first element of [findall], or [None]. *)
Definition find (record : Element) (path : string) : outcome (option Element) :=
  (let* found := findall record path in Return (hd_error found))%py.

(** Body of the loop of [extract_xml]: the value [v] of one element. *)
Definition extract_value (record : Element) (e : CompiledQuery) : outcome PyVal :=
  (let* xml_element := findall record (query e) in
   Return
     match xml_element with
     | [x] =>                                   (* len(xml_element) == 1 *)
         if String.eqb (element (spec e)) "field"
         then PList [code_value x]
         else PList [of_text (text x)]
     | _ :: _ :: _ =>                           (* len(xml_element) > 1 *)
         if String.eqb (element (spec e)) "field"
         then PList (map code_value xml_element)
         else PList (map (fun x => of_text (text x)) xml_element)
     | [] => PNone
     end)%py.

Fixpoint extract_loop (record : Element) (elements : list CompiledQuery)
         (dictionary_record : dict string PyVal) : outcome (dict string PyVal) :=
  match elements with
  | [] => Return dictionary_record
  | e :: rest =>
      (let* v := extract_value record e in
       extract_loop record rest
         (dict_set String.eqb (name (spec e)) v dictionary_record))%py
  end.

Definition extract_xml (record : Element) (elements : list FieldSpec)
  : outcome (dict string PyVal) :=
  let elements := map get_query elements in
  (let* control_field := find record "controlfield[@tag='001']" in
   let undl_id :=
     match control_field with
     | Some c => of_text (text c)
     | None => PNone
     end in
   extract_loop record elements (dict_set String.eqb "undl_id" undl_id []))%py.

End Extractor.

(** The value of one query written by cases on the list of its matches; the
    facts on the loop are stated with it. *)
Definition shaped (kind : string) (matches : list Element) : PyVal :=
  match matches with
  | [] => PNone
  | _ =>
      if String.eqb kind "field"
      then PList (map code_value matches)
      else PList (map (fun x => of_text (text x)) matches)
  end.

(** The library reads the selector of [e] on [record]. *)
Definition answers (findall : Element -> string -> outcome (list Element))
           (record : Element) (e : CompiledQuery) : Prop :=
  exists matches, findall record (query e) = Return matches.

(** The (code, text) pair of one subfield. *)
Definition code_text (e : Element) : key * PyVal :=
  (get e "code", of_text (text e)).

(** ** A path engine for the selectors of [get_query]

    Paths of the form [tag[@a='v']...[@a='v']/tag...], read against the
    children of the context element. *)

Module ElementPath.

Record Step : Type := { step_tag : string; step_preds : list (string * string) }.

Inductive mode : Type :=
| InName | AfterPred | ExpectAt | InAttr | ExpectQuote | InValue | ExpectClose.

Definition snoc (s : string) (c : ascii) : string := s ++ String c EmptyString.

Definition reserved (c : ascii) : bool :=
  existsb (Ascii.eqb c) ["]"; "@"; "="; "'"; "("; ")"; "!"; " "]%char.

Fixpoint parse (m : mode) (done : list Step) (tg : string)
         (ps : list (string * string)) (a v : string) (s : string)
  : option (list Step) :=
  let close := (done ++ [{| step_tag := tg; step_preds := ps |}])%list in
  match s with
  | EmptyString =>
      match m with
      | InName => if String.eqb tg "" then None else Some close
      | AfterPred => Some close
      | _ => None
      end
  | String c s' =>
      match m with
      | InName =>
          if Ascii.eqb c "/" then
            if String.eqb tg "" then None else parse InName close "" [] "" "" s'
          else if Ascii.eqb c "[" then
            if String.eqb tg "" then None else parse ExpectAt done tg ps "" "" s'
          else if reserved c then None
          else parse InName done (snoc tg c) ps a v s'
      | AfterPred =>
          if Ascii.eqb c "/" then parse InName close "" [] "" "" s'
          else if Ascii.eqb c "[" then parse ExpectAt done tg ps "" "" s'
          else None
      | ExpectAt =>
          if Ascii.eqb c "@" then parse InAttr done tg ps "" "" s' else None
      | InAttr =>
          if Ascii.eqb c "=" then
            if String.eqb a "" then None else parse ExpectQuote done tg ps a "" s'
          else if reserved c then None
          else parse InAttr done tg ps (snoc a c) v s'
      | ExpectQuote =>
          if Ascii.eqb c "'" then parse InValue done tg ps a "" s' else None
      | InValue =>
          if Ascii.eqb c "'" then parse ExpectClose done tg ps a v s'
          else parse InValue done tg ps a (snoc v c) s'
      | ExpectClose =>
          if Ascii.eqb c "]" then parse AfterPred done tg (ps ++ [(a, v)])%list "" "" s'
          else None
      end
  end.

Definition parse_path (path : string) : option (list Step) :=
  parse InName [] "" [] "" "" path.

Definition matches (st : Step) (e : Element) : bool :=
  String.eqb (tag e) (step_tag st)
  && forallb (fun p => key_eqb (get e (fst p)) (Some (snd p))) (step_preds st).

Fixpoint select (p : list Step) (context : list Element) : list Element :=
  match p with
  | [] => context
  | st :: p' =>
      select p' (flat_map (fun e => filter (matches st) (children e)) context)
  end.

Definition findall (e : Element) (path : string) : outcome (list Element) :=
  match parse_path path with
  | Some p => Return (select p [e])
  | None => Raise SyntaxError
  end.

End ElementPath.

(** ** A reference for [xmltodict.parse]

    What the library builds from a document, with its default options: the
    attributes of an element under "@" and their name, its children under
    their tags, a tag that comes again as the list of its values, the text
    under "#text", stripped; an element without attribute and without
    child is its text, or None.  The text that follows a child element is
    not part of [Element] and is left out. *)

Module Xmltodict.

(** [push_data(item, key, data)] *)
Definition push_data (item : dict key PyVal) (k : string) (data : PyVal)
  : dict key PyVal :=
  match dict_get key_eqb (Some k) item with
  | Some (PList values) => dict_set key_eqb (Some k) (PList (values ++ [data])) item
  | Some value => dict_set key_eqb (Some k) (PList [value; data]) item
  | None => dict_set key_eqb (Some k) data item
  end.

(** [data.strip() or None] *)
Definition cdata (t : option string) : option string :=
  match t with
  | Some s =>
      let s := PyStr.strip s in
      if String.eqb s "" then None else Some s
  | None => None
  end.

(** The value that the parent stores under the tag of [e]. *)
Fixpoint item (e : Element) : PyVal :=
  match e with
  | Elem _ attrs t cs =>
      let attributes := map (fun a => (Some ("@" ++ fst a), PStr (snd a))) attrs in
      let filled := fold_left (fun d c => push_data d (tag c) (item c)) cs attributes in
      match attrs, cs with
      | [], [] => of_text (cdata t)
      | _, _ =>
          PDict match cdata t with
                | Some data => push_data filled "#text" (PStr data)
                | None => filled
                end
      end
  end.

(** The document: its root under the tag of the root. *)
Definition unparsed (root : Element) : PyVal :=
  PDict [(Some (tag root), item root)].

End Xmltodict.

(** ** The world outside: network, clock, credential file *)

Definition Params := dict string PyVal.

Record Request : Type := {
  url : string;
  params : Params;
  headers : list (string * string)
}.

(** A response object: [r.status_code] and [r.text]. *)
Record Response : Type := {
  status_code : Z;
  body : string
}.

(** [requests.get] answers, or raises a [RequestException].  An answer
    may also break off after its status line: the status is there and the
    body cannot be read.  With [stream=True] the body is read where the
    program asks for it, and [r.text] and [r.json()] raise the
    [RequestException] there; without it [requests.get] reads the body
    itself and raises. *)
Inductive Reply : Type :=
| Answer (r : Response)
| NoAnswer (msg : string)
| Broken (status : Z) (msg : string).

Record World : Type := {
  sent : list Request;      (* the requests issued so far, oldest first *)
  slept : Z                 (* seconds spent in time.sleep *)
}.

Definition start : World := {| sent := []; slept := 0 |}.

(** A run ends normally, with an exception that nobody caught, or the model
    runs out of the fuel given to an unbounded loop: the loop has made as
    many passes as it had fuel and would go on, in the world [w]. *)
Inductive result (A : Type) : Type :=
| Done (a : A) (w : World)
| Failed (e : exn) (w : World)
| OutOfFuel (w : World).
Arguments Failed {A} e w.
Arguments OutOfFuel {A} w.

(** The world in which a run has ended or has been cut. *)
Definition world_after {A} (r : result A) : World :=
  match r with
  | Done _ w => w
  | Failed _ w => w
  | OutOfFuel w => w
  end.

Definition M (A : Type) : Type := World -> result A.

Definition ret {A} (a : A) : M A := fun w => Done a w.

Definition raise {A} (e : exn) : M A := fun w => Failed e w.

Definition bindM {A B} (c : M A) (k : A -> M B) : M B :=
  fun w =>
    match c w with
    | Done a w' => k a w'
    | Failed e w' => Failed e w'
    | OutOfFuel w' => OutOfFuel w'
    end.

Definition lift {A} (o : outcome A) : M A :=
  match o with
  | Return a => ret a
  | Raise e => raise e
  end.

Notation "x <- c1 ;; c2" := (bindM c1 (fun x => c2))
  (at level 61, c1 at next level, right associativity) : py_scope.
Notation "' pat <- c1 ;; c2" := (bindM c1 (fun x => match x with pat => c2 end))
  (at level 61, pat pattern, c1 at next level, right associativity) : py_scope.

(** [time.sleep(seconds)] *)
Definition sleep (seconds : Z) : M unit :=
  fun w => Done tt {| sent := sent w; slept := slept w + seconds |}.

(** ** Python operators on values *)

(** [v[k]] for a string [k]. *)
Definition getitem (v : PyVal) (k : string) : outcome PyVal :=
  match v with
  | PDict d =>
      match dict_get key_eqb (Some k) d with
      | Some x => Return x
      | None => Raise (KeyError k)
      end
  | _ => Raise TypeError
  end.

(** [k in v] for a string [k]. *)
Definition contains (k : string) (v : PyVal) : outcome bool :=
  match v with
  | PDict d => Return (dict_mem key_eqb (Some k) d)
  | PList l =>
      Return (existsb (fun x => match x with
                                | PStr s => String.eqb s k
                                | _ => false
                                end) l)
  | PStr s => Return (PyStr.contains s k)
  | _ => Raise TypeError
  end.

(** [int(v)] *)
Definition int (v : PyVal) : outcome Z :=
  match v with
  | PInt n => Return n
  | PStr s =>
      match PyStr.to_int s with
      | Some n => Return n
      | None => Raise ValueError
      end
  | _ => Raise TypeError
  end.

(** [len(v)] *)
Definition len (v : PyVal) : outcome Z :=
  match v with
  | PList l => Return (Z.of_nat (length l))
  | PDict d => Return (Z.of_nat (length d))
  | PStr s => Return (Z.of_nat (String.length s))
  | _ => Raise TypeError
  end.

Fixpoint chars (s : string) : list PyVal :=
  match s with
  | EmptyString => []
  | String c s' => PStr (String c EmptyString) :: chars s'
  end.

(** What [list.extend(v)] appends: the items of a list, the keys of a
    dictionary, the characters of a string. *)
Definition iter (v : PyVal) : outcome (list PyVal) :=
  match v with
  | PList l => Return l
  | PDict d => Return (map (fun kv => of_text (fst kv)) d)
  | PStr s => Return (chars s)
  | _ => Raise TypeError
  end.

(** [n % check == 0], evaluated only for the progress message. *)
Definition progress (n : nat) (check : Z) : outcome bool :=
  if check =? 0 then Raise ZeroDivisionError
  else Return (Z.of_nat n mod check =? 0).

(** ** Paginated fetcher: [undl_request] *)

(** One entry of the log, [[status, total, len(records), error, search_id]]:
    [log[1]] is [log_total] and [log[-1]] is [log_search_id]. *)
Record Log : Type := {
  log_status : option Z;
  log_total : option Z;
  log_count : Z;
  log_error : option string;
  log_search_id : PyVal
}.

Definition rate_limit_message : string :=
  "Let's wait 5 minutes! Too many requests, they say!".

Definition dquote : string := String (ascii_of_nat 34) EmptyString.

Definition marc_namespace : string :=
  "xmlns=" ++ dquote ++ "http://www.loc.gov/MARC21/slim" ++ dquote.

Section Fetcher.

(** The API: its reply to the [n]-th request (counted from 0). *)
Variable server : nat -> Request -> Reply.
(** [get_key()]: the token of the credential file, or the exception. *)
Variable get_key : outcome string.
(** [xmltodict.parse(text)] *)
Variable xmltodict_parse : string -> outcome PyVal.
(** [r.json()]; [None] stands for [ValueError]. *)
Variable json : Response -> option PyVal.
(** [ET.fromstring(text)]; [None] stands for [ParseError]. *)
Variable fromstring : string -> option Element.
(** [findall] of [xml.etree.ElementTree]. *)
Variable findall : Element -> string -> outcome (list Element).

(** [requests.get(url, params=..., headers=...)] *)
Definition requests_get (rq : Request) : M Reply :=
  fun w => Done (server (length (sent w)) rq)
                {| sent := sent w ++ [rq]; slept := slept w |}.

(** Lines 346-356: the log is built and returned with the records. *)
Definition finish (status total : option Z) (records : PyVal)
           (error : option string) (search_id : PyVal) : M (Log * PyVal) :=
  (n <- lift (len records) ;;
   ret ({| log_status := status; log_total := total; log_count := n;
           log_error := error; log_search_id := search_id |}, records))%py.

(** Lines 324-340: a response with status 200 whose body [r.text] has been
    read; the answer whose body cannot be read is the case [Broken] of
    [attempt] below. *)
Definition page (r : Response) (error : option string) : M (Log * PyVal) :=
  (r_dict <- lift (xmltodict_parse (body r)) ;;
   response <- lift (getitem r_dict "response") ;;
   total_text <- lift (getitem response "total") ;;
   total <- lift (int total_text) ;;
   search_id <- lift match getitem response "search_id" with
                     | Raise (KeyError _) => Return PNone
                     | other => other
                     end ;;
   collection <- lift (getitem response "collection") ;;
   has_record <- lift (contains "record" collection) ;;
   if (has_record : bool) then
     records <- lift (getitem collection "record") ;;
     finish (Some 200) (Some total) records error search_id
   else
     finish (Some 200) (Some total) (PList []) (Some "200: No records") search_id)%py.

(** Lines 299-344: the loop [while retry_count < 2], on the number
    [2 - retry_count] of attempts left; [status] and [error] are the
    variables of that name.  The request is sent with [stream=True]: when
    the answer breaks off after its status, the status is stored, and the
    exception of [r.json()] (line 318) or of [r.text] (line 326) is caught
    on lines 342-344 like the one of [requests.get]; after the status 429
    the body is not read. *)
Fixpoint attempt (left : nat) (rq : Request) (status : option Z)
         (error : option string) : M (Log * PyVal) :=
  match left with
  | O => finish status None (PList []) error PNone
  | S left' =>
      (reply <- requests_get rq ;;
       match reply with
       | NoAnswer msg => finish status None (PList []) (Some msg) PNone
       | Broken status msg =>
           if status =? 429 then
             _ <- sleep 300 ;;
             attempt left' rq (Some status) (Some rate_limit_message)
           else finish (Some status) None (PList []) (Some msg) PNone
       | Answer r =>
           let status := status_code r in
           if status =? 429 then
             _ <- sleep 300 ;;
             attempt left' rq (Some status) (Some rate_limit_message)
           else if negb (status =? 200) then
             match json r with
             | Some r_dict => finish (Some status) None (PList []) error PNone
             | None =>
                 finish (Some status) None (PList [])
                   (Some (PyStr.of_int status ++ ": Unable to parse error message"))
                   PNone
             end
           else page r error
       end)%py
  end.

(** [parameters["format"] = "xml"] *)
Definition with_format (parameters : Params) : Params :=
  dict_set String.eqb "format" (PStr "xml") parameters.

(** [requests.get(url, params=parameters, headers={"Authorization": "Token " + key})] *)
Definition json_request (parameters : Params) (key : string) : Request :=
  {| url := "https://digitallibrary.un.org/api/v1/search";
     params := parameters;
     headers := [("Authorization", "Token " ++ key)] |}.

(** Returns the result with the [parameters] object as the call leaves
    it: the caller's dictionary now has ["format"] set.  [result_queue]
    keeps its default, None. *)
Definition undl_request (parameters : Params) : M (Params * (Log * PyVal)) :=
  let parameters := with_format parameters in
  (key <- lift get_key ;;
   result <- attempt 2 (json_request parameters key) None None ;;
   ret (parameters, result))%py.

(** ** XML retrieval: [get_records_xml] *)

Definition xml_request (params : Params) (api_key : string) : Request :=
  {| url := "https://digitallibrary.un.org/api/v1/search?";
     params := params;
     headers := [("content-type", "application/xml");
                 ("Authorization", "Token " ++ api_key)] |}.

(** [requests.get] outside any [try], and without [stream]: the
    exception goes up, also the one of a body that cannot be read. *)
Definition get_or_raise (rq : Request) : M Response :=
  (reply <- requests_get rq ;;
   match reply with
   | Answer r => ret r
   | NoAnswer msg => raise (RequestException msg)
   | Broken _ msg => raise (RequestException msg)
   end)%py.

(** [x.text] where [x] may be [None]. *)
Definition text_of (x : option Element) : M (option string) :=
  match x with
  | Some e => ret (text e)
  | None => raise AttributeError
  end.

(** Lines 93-123, from the parsing of the response to the end of the loop
    body: [None] when the loop is left by [break], the new values of
    [search_id], [total] and [all_records] otherwise. *)
Definition xml_page (r : Response) (check : Z) (total : option string)
           (all_records : list Element)
  : M (option (option string * option string * list Element)) :=
  match fromstring (PyStr.replace (body r) marc_namespace EmptyString) with
  | None => ret None
  | Some response =>
      (cursor <- lift (find findall response "search_id") ;;
       search_id <- text_of cursor ;;
       total <- (if truthy total then ret total
                 else
                   found <- lift (find findall response "total") ;;
                   total <- text_of found ;;
                   (* "Total nb. of records: " + total *)
                   match total with
                   | Some _ => ret total
                   | None => raise TypeError
                   end) ;;
       collection <- lift (find findall response "collection") ;;
       match collection with
       | None => ret None
       | Some (Elem _ _ _ []) => ret None
       | Some c =>
           records <- lift (findall c "record") ;;
           let all_records := (all_records ++ records)%list in
           _ <- lift (progress (length all_records) check) ;;
           ret (Some (search_id, total, all_records))
       end)%py
  end.

(** The loop [while True]; [params] is assigned at the first pass, where
    [search_id] is [None]. *)
Fixpoint xml_loop (fuel : nat) (parameters : Params) (api_key : string)
         (check : Z) (params : Params) (search_id total : option string)
         (all_records : list Element) : M (list Element) :=
  match fuel with
  | O => fun w => OutOfFuel w
  | S fuel' =>
      let params :=
        if truthy search_id
        then dict_set String.eqb "search_id" (of_text search_id) params
        else parameters in
      (r <- get_or_raise (xml_request params api_key) ;;
       next <- (if negb (status_code r =? 200) then
                  if status_code r =? 429 then
                    _ <- sleep 300 ;;
                    r <- get_or_raise (xml_request params api_key) ;;
                    xml_page r check total all_records
                  else ret None
                else xml_page r check total all_records) ;;
       match next with
       | None => ret all_records
       | Some (search_id, total, all_records) =>
           xml_loop fuel' parameters api_key check params search_id total
             all_records
       end)%py
  end.

(** The tree returned: a root [collection] holding the records. *)
Definition get_records_xml (fuel : nat) (parameters : Params)
           (api_key : option string) (check : Z) : M Element :=
  (api_key <- match api_key with
              | Some k => ret k
              | None => lift get_key
              end ;;
   all_records <- xml_loop fuel parameters api_key check parameters None None [] ;;
   ret (Elem "collection" [] None all_records))%py.

End Fetcher.

(** ** Batch driver: [get_records_json] *)

Section Driver.

(** The function that the name [undl_request] stands for when
    [get_records_json] calls it: the fetcher above in the program, a
    simulated one in a test. *)
Variable undl_request : Params -> M (Params * (Log * PyVal)).

Definition reached (all_records : list PyVal) (total : option Z) : bool :=
  match total with
  | Some t => Z.of_nat (length all_records) =? t
  | None => false
  end.

(** The loop [while len(all_records) != total]. *)
Fixpoint json_loop (fuel : nat) (check : Z) (search_parameters : Params)
         (all_records : list PyVal) (total : option Z) (logs : list Log)
  : M (list Log * list PyVal) :=
  if reached all_records total then ret (logs, all_records)
  else
    match fuel with
    | O => fun w => OutOfFuel w
    | S fuel' =>
        ('(search_parameters, (log, records)) <- undl_request search_parameters ;;
         items <- lift (iter records) ;;
         let all_records := (all_records ++ items)%list in
         let logs := (logs ++ [log])%list in
         let search_parameters :=
           match total with
           | None => dict_set String.eqb "search_id" (log_search_id log) search_parameters
           | Some _ => search_parameters
           end in
         let total :=
           match total with
           | None => log_total log
           | Some _ => total
           end in
         _ <- lift (progress (length all_records) check) ;;
         json_loop fuel' check search_parameters all_records total logs)%py
    end.

Definition get_records_json (fuel : nat) (parameters : Params) (check : Z)
  : M (list Log * list PyVal) :=
  json_loop fuel check parameters [] None [].

End Driver.

(** ** Post-processing: [add_links], [flatten], [clean], [extract] *)

Section Transforms.

(** [repr(v)] of a list or of a dictionary, which is what [str] gives for
    them. *)
Variable repr : PyVal -> string.

(** [str(v)] *)
Definition str (v : PyVal) : string :=
  match v with
  | PNone => "None"
  | PInt n => PyStr.of_int n
  | PStr s => s
  | PList _ => repr v
  | PDict _ => repr v
  end.

(** [template + str(column_value)], for a template that is a string. *)
Definition add_links (column_value : PyVal) (template : string) : string :=
  template ++ str column_value.

(** [' '.join(str(value) for value in value.values())] *)
Definition value_string (value : list (key * PyVal)) : string :=
  String.concat " " (map (fun kv => str (snd kv)) value).

Fixpoint flatten_field (column_value : list PyVal) : list PyVal :=
  match column_value with
  | [] => []
  | PDict value :: rest => PStr (value_string value) :: flatten_field rest
  | _ :: rest => flatten_field rest
  end.

Definition flatten (column_value : PyVal) : PyVal :=
  match column_value with
  | PList l => PList (flatten_field l)
  | _ => column_value
  end.

(** ['|'.join(map(str, column_value))] *)
Definition clean (column_value : PyVal) : PyVal :=
  match column_value with
  | PList l => PStr (String.concat "|" (map str l))
  | _ => column_value
  end.

End Transforms.

Fixpoint extracted_values (column_value : list PyVal) (subfield : key) : list PyVal :=
  match column_value with
  | [] => []
  | PDict value :: rest =>
      match dict_get key_eqb subfield value with
      | Some x => x :: extracted_values rest subfield
      | None => extracted_values rest subfield
      end
  | _ :: rest => extracted_values rest subfield
  end.

Definition extract (column_value : PyVal) (subfield : key) : PyVal :=
  match column_value with
  | PList l =>
      match extracted_values l subfield with
      | [] => PNone
      | values => PList values
      end
  | _ => PNone
  end.

(** ** From the tree of [get_records_xml] to a list of records: [convert_lxml] *)

Section Convert.

(** [ET.tostring(root, encoding='utf-8')] *)
Variable tostring : Element -> string.
(** [etree.fromstring(text)] of lxml *)
Variable lxml_fromstring : string -> outcome Element.
(** [findall] of lxml *)
Variable findall : Element -> string -> outcome (list Element).

Definition convert_lxml (xml_et : Element) : outcome (list Element) :=
  (let* xml_root := lxml_fromstring (tostring xml_et) in
   findall xml_root "record")%py.

End Convert.

(** ** Vocabulary of the properties *)

(** The character [c] occurs in [s]. *)
Fixpoint has_char (c : ascii) (s : string) : bool :=
  match s with
  | EmptyString => false
  | String a s' => Ascii.eqb a c || has_char c s'
  end.

Definition apostrophe : ascii := ascii_of_nat 39.

Definition bar : ascii := ascii_of_nat 124.

(** A rule whose tag, indicator and code hold no apostrophe. *)
Definition quote_free (e : FieldSpec) : Prop :=
  has_char apostrophe (field e) = false
  /\ (forall i, ind1 e = Some i -> has_char apostrophe i = false)
  /\ (forall c, code e = Some c -> has_char apostrophe c = false).

(** The steps that a selector adds for an indicator and for a code. *)
Definition code_step (c : option string) : string :=
  match c with
  | Some c => "/subfield[@code='" ++ c ++ String apostrophe "]"
  | None => EmptyString
  end.

Definition indicator_step (i : option string) : string :=
  match i with
  | Some i => "[@ind1='" ++ i ++ String apostrophe "]"
  | None => EmptyString
  end.

Definition free (t : option string) : Prop :=
  forall s, t = Some s -> has_char apostrophe s = false.

(** The first indicator that the selector filters on: an empty one is no
    filter. *)
Definition effective_ind1 (e : FieldSpec) : option string :=
  if truthy (ind1 e) then ind1 e else None.




(** Neither the first nor the last character of [s] is a blank. *)
Definition trimmed (s : string) : Prop :=
  (forall c r, s = String c r -> PyStr.isspace c = false)
  /\ (forall r c, s = r ++ String c EmptyString -> PyStr.isspace c = false).

(** The text that [extract_xml] keeps for the code [k] of one field: that
    of the last subfield with this code. *)
Definition last_text (k : key) (datafield : Element) : option PyVal :=
  option_map (fun e => of_text (text e))
    (List.find (fun e => key_eqb k (get e "code")) (rev (xpath_subfields datafield))).



(** The first total that a log reports. *)
Fixpoint first_total (logs : list Log) : option Z :=
  match logs with
  | [] => None
  | log :: rest =>
      match log_total log with
      | Some t => Some t
      | None => first_total rest
      end
  end.

Definition sum_counts (logs : list Log) : Z :=
  fold_right (fun log n => log_count log + n) 0 logs.

(** ** Simulated API and sample records *)

Module Simulation.

(** A server that plays a list of replies, whatever the request. *)
Definition script (replies : list Reply) : nat -> Request -> Reply :=
  fun n _ => nth n replies (NoAnswer "connection refused").

Definition ok (text : string) : Reply :=
  Answer {| status_code := 200; body := text |}.

Definition status_only (code : Z) (text : string) : Reply :=
  Answer {| status_code := code; body := text |}.

(** Decoders given by a table from response text to decoded value. *)
Definition table (A : Type) (entries : list (string * A)) (text : string)
  : option A :=
  dict_get String.eqb text entries.

Definition decoder (entries : list (string * PyVal)) (text : string)
  : outcome PyVal :=
  match table entries text with
  | Some v => Return v
  | None => Raise ExpatError
  end.

(** The dictionary of a page: [response] with [total], [search_id] and
    [collection.record]. *)
Definition envelope (total cursor records : PyVal) : PyVal :=
  PDict [(Some "response",
          PDict [(Some "total", total);
                 (Some "search_id", cursor);
                 (Some "collection", PDict [(Some "record", records)])])].

(** A page without cursor and without records. *)
Definition envelope_exhausted (total : PyVal) : PyVal :=
  PDict [(Some "response",
          PDict [(Some "total", total);
                 (Some "collection", PDict [(Some "@xmlns", PStr "slim")])])].

Definition leaf (name value : string) : Element :=
  Elem name [] (Some value) [].

(** The same page as an element tree. *)
Definition page_tree (total cursor : string) (records : list Element) : Element :=
  Elem "response" []
       None
       [leaf "search_id" cursor; leaf "total" total;
        Elem "collection" [] None records].

Definition subfield (c t : string) : Element :=
  Elem "subfield" [("code", c)] (Some t) [].

Definition marc (id : string) (fields : list Element) : Element :=
  Elem "record" [] None (Elem "controlfield" [("tag", "001")] (Some id) [] :: fields).

Definition record42 : Element :=
  marc "42"
    [Elem "datafield" [("tag", "245"); ("ind1", "1")] None
          [subfield "a" "x"; subfield "b" "y"];
     Elem "datafield" [("tag", "650")] None [subfield "a" "s1"];
     Elem "datafield" [("tag", "650")] None [subfield "a" "s2"; subfield "a" "s3"];
     Elem "datafield" [("tag", "900")] None []].

Definition rule (f k : string) (c i : option string) (n : string) : FieldSpec :=
  {| field := f; element := k; code := c; ind1 := i; name := n |}.

Definition water : Params := [("p", PStr "water")].

(** A record as [xmltodict] hands it over. *)
Definition raw (id : string) : PyVal :=
PDict [(Some "controlfield",
        PDict [(Some "@tag", PStr "001"); (Some "#text", PStr id)])].

(** A page with a cursor and no record. *)
Definition envelope_empty (total cursor : PyVal) : PyVal :=
PDict [(Some "response",
        PDict [(Some "total", total);
               (Some "search_id", cursor);
               (Some "collection", PDict [(Some "@xmlns", PStr "slim")])])].

(** Total 3: two records, one record, an empty page.  The records of a
    page are a list when there are several, and the record itself when
    there is one. *)
Definition pages_2_1_0 : string -> outcome PyVal :=
decoder [("page 1", envelope (PStr "3") (PStr "c1") (PList [raw "1"; raw "2"]));
         ("page 2", envelope (PStr "3") (PStr "c2") (raw "3"));
         ("page 3", envelope_empty (PStr "3") (PStr "c3"))].

(** Total 6: three pages of two records, each with a cursor of its own. *)
Definition pages_2_2_2 : string -> outcome PyVal :=
decoder [("page 1", envelope (PStr "6") (PStr "c1") (PList [raw "1"; raw "2"]));
         ("page 2", envelope (PStr "6") (PStr "c2") (PList [raw "3"; raw "4"]));
         ("page 3", envelope (PStr "6") (PStr "c3") (PList [raw "5"; raw "6"]))].

(** The same three pages as element trees, and a fourth without record. *)
Definition trees_2_2_2 : string -> option Element :=
table [("page 1", page_tree "6" "c1" [marc "1" []; marc "2" []]);
       ("page 2", page_tree "6" "c2" [marc "3" []; marc "4" []]);
       ("page 3", page_tree "6" "c3" [marc "5" []; marc "6" []]);
       ("page 4", page_tree "6" "c4" [])].

(** A result page that has a total and a collection and no cursor. *)
Definition tree_without_cursor : string -> option Element :=
table [("no result", Elem "response" [] None
                          [leaf "total" "0"; Elem "collection" [] None []])].

(** A server error whose body is a JSON object with a message. *)
Definition error_body : string :=
"{" ++ dquote ++ "message" ++ dquote ++ ": " ++ dquote ++ "Internal Server Error"
    ++ dquote ++ "}".

Definition json_of (r : Response) : option PyVal :=
table [(error_body, PDict [(Some "message", PStr "Internal Server Error")])] (body r).

(** The log of a page with its total, count and cursor. *)
Definition page_log (total count : Z) (error : option string) (cursor : string) : Log :=
{| log_status := Some 200; log_total := Some total; log_count := count;
   log_error := error; log_search_id := PStr cursor |}.

(** The cursor that a request carries. *)
Definition cursor_sent (rq : Request) : option PyVal :=
dict_get String.eqb "search_id" (params rq).

(** Pages as documents, decoded as [xmltodict] does. *)
Definition api_page (total cursor : string) (records : list Element) : Element :=
Elem "response" [] None
     [leaf "total" total; leaf "search_id" cursor;
      Elem "collection" [("xmlns", "http://www.loc.gov/MARC21/slim")] None records].

Definition xmltodict_of (pages : list (string * Element)) (text : string)
  : outcome PyVal :=
match table pages text with
| Some document => Return (Xmltodict.unparsed document)
| None => Raise ExpatError
end.

(** A record with its identifier and a title. *)
Definition titled (id title : string) : Element :=
marc id [Elem "datafield" [("tag", "245")] None [subfield "a" title]].

(** Total 3: a page of two records, a page of one record, and empty
    pages from then on. *)
Definition api_2_1_0 : string -> outcome PyVal :=
xmltodict_of [("page 1", api_page "3" "c1" [titled "1" "One"; titled "2" "Two"]);
              ("page 2", api_page "3" "c2" [titled "3" "Three"]);
              ("page 3", api_page "3" "c3" [])].

(** Total 4: two pages of two records, and empty pages from then on. *)
Definition api_2_2_0 : string -> outcome PyVal :=
xmltodict_of [("page 1", api_page "4" "c1" [titled "1" "One"; titled "2" "Two"]);
              ("page 2", api_page "4" "c2" [titled "3" "Three"; titled "4" "Four"]);
              ("page 3", api_page "4" "c3" [])].

Definition then_empty : nat -> Request -> Reply :=
fun n _ =>
  match n with
  | 0%nat => ok "page 1"
  | 1%nat => ok "page 2"
  | _ => ok "page 3"
  end.

End Simulation.

(** ** More simulated servers *)

(** A network that is down. *)
Definition unreachable : nat -> Request -> Reply :=
  fun _ _ => NoAnswer "connection refused".

(** A page with two records and no cursor. *)
Definition page_without_cursor : string -> outcome PyVal :=
  Simulation.decoder
    [("no cursor",
      PDict [(Some "response",
              PDict [(Some "total", PStr "2");
                     (Some "collection",
                      PDict [(Some "record",
                              PList [Simulation.raw "1"; Simulation.raw "2"])])])])].

(** The result of a page obtained at the retry, and the world after it. *)
Definition retried_log : Log :=
  {| log_status := Some 200; log_total := Some 3; log_count := 2;
     log_error := Some rate_limit_message; log_search_id := PStr "c1" |}.

Definition retried_world : World :=
  {| sent := [json_request (with_format Simulation.water) "token";
              json_request (with_format Simulation.water) "token"];
     slept := 300 |}.

(** The state of [get_records_json] after a first page that brought the
    cursor c1: the parameters, and the world with the first request. *)
Definition first_cursor : Params :=
  dict_set String.eqb "search_id" (PStr "c1") (with_format Simulation.water).

Definition after_first_page : World :=
  {| sent := [json_request (with_format Simulation.water) "token"]; slept := 0 |}.

(** An answer with the status 200 that breaks off before its body is
    read, and the log of the call that met it. *)
Definition cut_off : nat -> Request -> Reply :=
  Simulation.script [Broken 200 "Connection broken: IncompleteRead"].

Definition unread_log : Log :=
  {| log_status := Some 200; log_total := None; log_count := 0;
     log_error := Some "Connection broken: IncompleteRead";
     log_search_id := PNone |}.

(** * Properties *)

Import Simulation.

(** ** Strings and dictionaries *)

Lemma append_length (s t : string) :
  String.length (s ++ t) = (String.length s + String.length t)%nat.
Proof.
  induction s as [|c s IH]; simpl; [reflexivity | now rewrite IH].
Qed.


Lemma append_assoc (s t u : string) : (s ++ t) ++ u = s ++ (t ++ u).
Proof.
  induction s as [|c s IH]; simpl; [reflexivity | now rewrite IH].
Qed.

(** A string is never equal to itself followed by a character. *)
Lemma append_proper (s : string) (c : ascii) (t : string) :
  s <> s ++ String c t.
Proof.
  intro H. apply (f_equal String.length) in H.
  rewrite append_length in H. simpl in H. lia.
Qed.

Section DictFacts.
Variables K V : Type.
Variable eqb : K -> K -> bool.
Hypothesis eqb_eq : forall a b, eqb a b = true <-> a = b.

Lemma eqb_same (k : K) : eqb k k = true.
Proof. now apply eqb_eq. Qed.

Lemma eqb_diff (a b : K) : a <> b -> eqb a b = false.
Proof.
  intro H. destruct (eqb a b) eqn:E; [|reflexivity].
  now apply eqb_eq in E.
Qed.

Lemma dict_get_set_same (k : K) (v : V) (d : dict K V) :
  dict_get eqb k (dict_set eqb k v d) = Some v.
Proof.
  induction d as [|[k' v'] d IH]; simpl.
  - now rewrite eqb_same.
  - destruct (eqb k k') eqn:E; simpl; rewrite E; [reflexivity | exact IH].
Qed.

Lemma dict_get_set_other (k k' : K) (v : V) (d : dict K V) :
  k <> k' -> dict_get eqb k (dict_set eqb k' v d) = dict_get eqb k d.
Proof.
  intro Hk. induction d as [|[k0 v0] d IH]; simpl.
  - now rewrite (eqb_diff Hk).
  - destruct (eqb k' k0) eqn:E; simpl.
    + apply eqb_eq in E. subst k0. now rewrite (eqb_diff Hk).
    + now rewrite IH.
Qed.


End DictFacts.

(** ** Identifier normalizer *)

(** The three examples of the specification. *)
Lemma convert_me_id_examples :
  convert_me_id (PList [PStr "(DHL)12345 "; PStr "other"]) = PStr "12345"
  /\ convert_me_id (PList [PStr "other"]) = PNone
  /\ convert_me_id (PStr "scalar") = PStr "scalar".
Proof. repeat split. Qed.

Lemma convert_me_id_passthrough (v : PyVal) :
  (forall l, v <> PList l) -> convert_me_id v = v.
Proof.
  intro H. destruct v; try reflexivity. now elim (H items).
Qed.

(** C9: on a list whose first ["(DHL)"] element carries the marker a second
    time, [convert_me_id] drops every occurrence of the marker, where its
    docstring and the specification remove the leading one only. *)
Theorem convert_me_id_drops_inner_marker :
  convert_me_id (PList [PStr "(DHL)12(DHL)34"]) = PStr "1234"
  /\ convert_me_id_documented (PList [PStr "(DHL)12(DHL)34"]) = PStr "12(DHL)34"
  /\ convert_me_id (PList [PStr "(DHL)12(DHL)34"])
     <> convert_me_id_documented (PList [PStr "(DHL)12(DHL)34"]).
Proof. repeat split. discriminate. Qed.

(** ** Query compiler *)

(** C4: the selector of a specification without subfield code is the
    field-level selector; with the empty string as code it is that selector
    followed by the step to the subfield whose code is empty; the two
    selectors differ, whatever the other entries. [get_query] is a function:
    equal specifications have equal selectors. *)
Theorem get_query_absent_vs_empty_code (f k : string) (i : option string) (n : string) :
  let absent := {| field := f; element := k; code := None; ind1 := i; name := n |} in
  let empty := {| field := f; element := k; code := Some EmptyString; ind1 := i; name := n |} in
  query (get_query absent) = field_selector absent
  /\ query (get_query empty) = query (get_query absent) ++ "/subfield[@code='']"
  /\ query (get_query absent) <> query (get_query empty).
Proof.
  simpl. repeat split.
  unfold get_query, field_selector; simpl.
  apply append_proper.
Qed.

(** On a field with a subfield of empty code and a subfield a, the selector
    for the empty code picks the former and the selector without code picks
    the field. *)
Lemma get_query_empty_code_selects :
  let f := Elem "datafield" [("tag", "245")] None
                [Elem "subfield" [("code", EmptyString)] (Some "none") [];
                 subfield "a" "title"] in
  let r := Elem "record" [] None [f] in
  ElementPath.findall r (query (get_query (rule "245" "subfield" (Some EmptyString) None "t")))
  = Return [Elem "subfield" [("code", EmptyString)] (Some "none") []]
  /\ ElementPath.findall r (query (get_query (rule "245" "field" None None "t")))
     = Return [f].
Proof. split; reflexivity. Qed.

(** The field-level selector starts at the tag and narrows by the first
    indicator exactly when one is given and not empty. *)
Lemma field_selector_cases (e : FieldSpec) :
  field_selector e =
    match ind1 e with
    | Some i =>
        if String.eqb i EmptyString then "datafield[@tag='" ++ field e ++ "']"
        else ("datafield[@tag='" ++ field e ++ "']") ++ "[@ind1='" ++ i ++ "']"
    | None => "datafield[@tag='" ++ field e ++ "']"
    end.
Proof.
  unfold field_selector, truthy, fmt. destruct (ind1 e) as [i|]; [|reflexivity].
  now destruct (String.eqb i EmptyString).
Qed.

(** Any code that is present, empty or not, adds the subfield step. *)
Lemma get_query_with_code (e : FieldSpec) (c : string) :
  code e = Some c ->
  query (get_query e) = field_selector e ++ "/subfield[@code='" ++ c ++ "']".
Proof.
  intro H. unfold get_query; simpl. rewrite H; simpl.
  destruct (String.eqb c EmptyString) eqn:E; simpl; [|reflexivity].
  reflexivity.
Qed.

(** ** Record extractor *)

Section ExtractorFacts.

Variable findall : Element -> string -> outcome (list Element).
Variable record : Element.

Lemma extract_value_shaped (e : CompiledQuery) (matches : list Element) :
  findall record (query e) = Return matches ->
  extract_value findall record e = Return (shaped (element (spec e)) matches).
Proof.
  intro H. unfold extract_value. rewrite H. simpl.
  destruct matches as [|x [|y rest]]; simpl; try reflexivity;
    now destruct (String.eqb (element (spec e)) "field").
Qed.

(** The loop ends normally when the library reads every selector. *)
Lemma extract_loop_returns (elements : list CompiledQuery) :
  Forall (answers findall record) elements ->
  forall d, exists d', extract_loop findall record elements d = Return d'.
Proof.
  induction 1 as [|e rest [ms Hms] _ IH]; intro d; simpl.
  - now exists d.
  - rewrite (extract_value_shaped e Hms). simpl. apply IH.
Qed.

(** A key that no query writes keeps its value. *)
Lemma extract_loop_frame (k : string) (elements : list CompiledQuery) :
  Forall (fun e => name (spec e) <> k) elements ->
  forall d d',
    extract_loop findall record elements d = Return d' ->
    dict_get String.eqb k d' = dict_get String.eqb k d.
Proof.
  induction 1 as [|e rest Hk _ IH]; intros d d'; simpl.
  - now intros [= <-].
  - destruct (extract_value findall record e) as [v|]; simpl; [|discriminate].
    intro H. rewrite (IH _ _ H).
    apply dict_get_set_other; [exact String.eqb_eq | congruence].
Qed.

(** The value of a query stands under its key when no later query writes
    that key. *)
Lemma extract_loop_stores (before : list CompiledQuery) (e : CompiledQuery)
      (after : list CompiledQuery) :
  Forall (fun e' => name (spec e') <> name (spec e)) after ->
  forall d d' v,
    extract_value findall record e = Return v ->
    extract_loop findall record (before ++ e :: after) d = Return d' ->
    dict_get String.eqb (name (spec e)) d' = Some v.
Proof.
  intros Hafter. induction before as [|b before IH]; intros d d' v Hv; simpl.
  - rewrite Hv. simpl. intro H.
    rewrite (extract_loop_frame Hafter _ H).
    apply dict_get_set_same. exact String.eqb_eq.
  - destruct (extract_value findall record b) as [vb|]; simpl; [|discriminate].
    now apply IH.
Qed.

Lemma Forall_answers_app (before : list CompiledQuery) (e : CompiledQuery)
      (after : list CompiledQuery) :
  Forall (answers findall record) (before ++ after) -> answers findall record e ->
  Forall (answers findall record) (before ++ e :: after).
Proof.
  intros H He. apply Forall_app in H as [Hb Ha].
  apply Forall_app. split; [exact Hb | now constructor].
Qed.

(** End to end: [extract_xml] returns, and the value of [e] is where its
    name says. *)
Lemma extract_xml_stores (before : list FieldSpec) (e : FieldSpec)
      (after : list FieldSpec) (matches : list Element) :
  (exists cs, findall record "controlfield[@tag='001']" = Return cs) ->
  Forall (answers findall record) (map get_query (before ++ after)) ->
  findall record (query (get_query e)) = Return matches ->
  Forall (fun e' => name e' <> name e) after ->
  exists d,
    extract_xml findall record (before ++ e :: after) = Return d
    /\ dict_get String.eqb (name e) d = Some (shaped (element e) matches).
Proof.
  intros [cs Hcs] Hall He Hafter.
  unfold extract_xml, find. rewrite Hcs. simpl.
  rewrite map_app in *. simpl.
  assert (Hans : Forall (answers findall record) (map get_query before ++ get_query e :: map get_query after)).
  { apply Forall_answers_app; [exact Hall | now exists matches]. }
  destruct (extract_loop_returns Hans
              (dict_set String.eqb "undl_id"
                 match hd_error cs with
                 | Some c => of_text (text c)
                 | None => PNone
                 end [])) as [d Hd].
  exists d. split; [exact Hd|].
  change (name e) with (name (spec (get_query e))).
  change (element e) with (element (spec (get_query e))).
  eapply extract_loop_stores; [| | exact Hd].
  - apply Forall_map. simpl. exact Hafter.
  - apply (extract_value_shaped (get_query e) He).
Qed.

End ExtractorFacts.

Lemma key_eqb_eq (a b : key) : key_eqb a b = true <-> a = b.
Proof.
  destruct a as [x|], b as [y|]; simpl; try (split; congruence).
  rewrite String.eqb_eq. split; congruence.
Qed.

(** A key that is new goes to the end of the dictionary. *)
Lemma dict_set_fresh (k : key) (v : PyVal) (d : dict key PyVal) :
  ~ In k (map fst d) -> dict_set key_eqb k v d = (d ++ [(k, v)])%list.
Proof.
  induction d as [|[k' v'] d IH]; simpl; intro H; [reflexivity|].
  rewrite (eqb_diff key_eqb key_eqb_eq) by intuition congruence.
  rewrite IH by tauto. reflexivity.
Qed.

Lemma code_value_from (subs : list Element) (d : dict key PyVal) :
  NoDup (map fst d ++ map (fun e => get e "code") subs) ->
  fold_left (fun d e => dict_set key_eqb (get e "code") (of_text (text e)) d) subs d
  = (d ++ map code_text subs)%list.
Proof.
  revert d. induction subs as [|e subs IH]; intros d H; simpl.
  - now rewrite app_nil_r.
  - assert (Hfresh : ~ In (get e "code") (map fst d)).
    { intro Hin. apply NoDup_remove_2 in H. apply H.
      apply in_or_app. now left. }
    rewrite dict_set_fresh by exact Hfresh. rewrite IH.
    + rewrite <- app_assoc. reflexivity.
    + rewrite map_app. simpl. rewrite <- app_assoc. exact H.
Qed.

(** X30: the dictionary of a field whose subfields have distinct codes: the
    (code, text) pairs of its subfields, in document order. *)
Lemma code_value_distinct (datafield : Element) :
  NoDup (map (fun e => get e "code") (xpath_subfields datafield)) ->
  code_value datafield = PDict (map code_text (xpath_subfields datafield)).
Proof.
  intro H. unfold code_value. now rewrite code_value_from.
Qed.

Lemma find_append (A : Type) (f : A -> bool) (l1 l2 : list A) :
  List.find f (l1 ++ l2)
  = match List.find f l1 with
    | Some x => Some x
    | None => List.find f l2
    end.
Proof.
  induction l1 as [|x l1 IH]; simpl; [reflexivity|].
  now destruct (f x).
Qed.

(** In general a code is mapped to the text of the last subfield that
    carries it. *)
Lemma code_value_lookup (k : key) (subs : list Element) (d : dict key PyVal) :
  dict_get key_eqb k
    (fold_left (fun d e => dict_set key_eqb (get e "code") (of_text (text e)) d) subs d)
  = match List.find (fun e => key_eqb k (get e "code")) (rev subs) with
    | Some e => Some (of_text (text e))
    | None => dict_get key_eqb k d
    end.
Proof.
  revert d. induction subs as [|e subs IH]; intro d; simpl; [reflexivity|].
  rewrite IH. rewrite find_append.
  destruct (List.find (fun e0 => key_eqb k (get e0 "code")) (rev subs)); [reflexivity|].
  simpl. destruct (key_eqb k (get e "code")) eqn:E.
  - apply key_eqb_eq in E. subst k. apply dict_get_set_same. exact key_eqb_eq.
  - apply dict_get_set_other; [exact key_eqb_eq|].
    intro Heq. subst k. now rewrite (eqb_same key_eqb key_eqb_eq) in E.
Qed.




(** C10: a "field" query whose selector matches one field without any
    subfield gets the one-element list of the empty dictionary. *)
Theorem extract_xml_field_without_subfields
        (findall : Element -> string -> outcome (list Element))
        (record : Element) (before : list FieldSpec) (e : FieldSpec)
        (after : list FieldSpec) (m : Element) :
  (exists cs, findall record "controlfield[@tag='001']" = Return cs) ->
  Forall (answers findall record) (map get_query (before ++ after)) ->
  findall record (query (get_query e)) = Return [m] ->
  element e = "field" ->
  xpath_subfields m = [] ->
  Forall (fun e' => name e' <> name e) after ->
  exists d,
    extract_xml findall record (before ++ e :: after) = Return d
    /\ dict_get String.eqb (name e) d = Some (PList [PDict []]).
Proof.
  intros Hc Hall He Hkind Hsubs Hafter.
  destruct (@extract_xml_stores findall record before e after [m] Hc Hall He Hafter)
    as (d & Hd & Hv).
  exists d. split; [exact Hd|]. rewrite Hv, Hkind. simpl.
  unfold code_value. now rewrite Hsubs.
Qed.

(** The field 900 of the sample record has no subfield. *)
Lemma extract_xml_field_without_subfields_witness :
  exists d,
    extract_xml ElementPath.findall record42
      [rule "900" "field" None None "note"] = Return d
    /\ dict_get String.eqb "note" d = Some (PList [PDict []]).
Proof.
  apply (@extract_xml_field_without_subfields
           ElementPath.findall record42 []
           (rule "900" "field" None None "note") []
           (Elem "datafield" [("tag", "900")] None [])).
  - eexists. reflexivity.
  - constructor.
  - reflexivity.
  - reflexivity.
  - reflexivity.
  - constructor.
Defined.

(** C3, as stated, fails: a query whose output name is "undl_id" replaces
    the identifier.  The record has the control field 001 with text "42",
    and the result holds the matched title instead. *)
Lemma undl_id_overwritten_by_query :
  find ElementPath.findall record42 "controlfield[@tag='001']"
  = Return (Some (Elem "controlfield" [("tag", "001")] (Some "42") []))
  /\ extract_xml ElementPath.findall record42
       [rule "245" "subfield" (Some "a") None "undl_id"]
     = Return [("undl_id", PList [PStr "x"])]
  /\ ~ (exists d,
          extract_xml ElementPath.findall record42
            [rule "245" "subfield" (Some "a") None "undl_id"] = Return d
          /\ dict_get String.eqb "undl_id" d = Some (PStr "42")).
Proof.
  repeat split. intros (d & Hd & Hid).
  vm_compute in Hd. injection Hd as <-. discriminate Hid.
Qed.

(** C3, amended: when no query has the output name "undl_id", the result
    maps "undl_id" to the text of the first control field tagged 001, and to
    None when there is none, whatever the queries match. *)
Theorem extract_xml_undl_id
        (findall : Element -> string -> outcome (list Element))
        (record : Element) (elements : list FieldSpec) (cs : list Element) :
  findall record "controlfield[@tag='001']" = Return cs ->
  Forall (answers findall record) (map get_query elements) ->
  Forall (fun e => name e <> "undl_id") elements ->
  exists d,
    extract_xml findall record elements = Return d
    /\ dict_get String.eqb "undl_id" d
       = Some match cs with
              | c :: _ => of_text (text c)
              | [] => PNone
              end.
Proof.
  intros Hcs Hall Hnames. unfold extract_xml, find. rewrite Hcs. simpl.
  match goal with
  | |- exists d, extract_loop _ _ _ ?d0 = _ /\ _ =>
      destruct (extract_loop_returns Hall d0) as [d Hd]
  end.
  exists d. split; [exact Hd|].
  assert (Hkeep : Forall (fun q => name (spec q) <> "undl_id") (map get_query elements)).
  { apply Forall_map. simpl. exact Hnames. }
  rewrite (@extract_loop_frame findall record "undl_id" _ Hkeep _ _ Hd).
  simpl. now destruct cs.
Qed.

(** The identifier 42 next to a query that matches and one that does not. *)
Lemma extract_xml_undl_id_witness :
  exists d,
    extract_xml ElementPath.findall record42
      [rule "245" "subfield" (Some "a") None "title";
       rule "999" "field" None None "local"] = Return d
    /\ dict_get String.eqb "undl_id" d = Some (PStr "42").
Proof.
  apply (@extract_xml_undl_id
           ElementPath.findall record42
           [rule "245" "subfield" (Some "a") None "title";
            rule "999" "field" None None "local"]
           [Elem "controlfield" [("tag", "001")] (Some "42") []]).
  - reflexivity.
  - repeat constructor; eexists; reflexivity.
  - repeat constructor; discriminate.
Defined.

(** ** Paginated fetcher and batch driver *)

Lemma dict_set_idem (k : string) (v : PyVal) (d : Params) :
  dict_get String.eqb k d = Some v -> dict_set String.eqb k v d = d.
Proof.
  induction d as [|[k' v'] d IH]; simpl; [discriminate|].
  destruct (String.eqb k k'); [now intros [= ->] | intro H; now rewrite IH].
Qed.

Section DriverFacts.

Variable undl_request : Params -> M (Params * (Log * PyVal)).

(** One pass of the loop of [get_records_json]. *)
Lemma json_loop_step (fuel : nat) (check : Z) (search_parameters : Params)
      (all_records : list PyVal) (total : option Z) (logs : list Log) (w : World) :
json_loop undl_request (S fuel) check search_parameters all_records total logs w
= if reached all_records total then Done (logs, all_records) w
  else
    match undl_request search_parameters w with
    | Done (search_parameters', (log, records)) w' =>
        match iter records with
        | Return items =>
            if check =? 0 then Failed ZeroDivisionError w'
            else
              json_loop undl_request fuel check
                match total with
                | None => dict_set String.eqb "search_id" (log_search_id log)
                                   search_parameters'
                | Some _ => search_parameters'
                end
                (all_records ++ items)
                match total with
                | None => log_total log
                | Some _ => total
                end
                (logs ++ [log]) w'
        | Raise e => Failed e w'
        end
    | Failed e w' => Failed e w'
    | OutOfFuel w' => OutOfFuel w'
    end.
Proof.
simpl. destruct (reached all_records total); [reflexivity|].
unfold bindM.
destruct (undl_request search_parameters w)
  as [[sp' [log records]] w'| |]; try reflexivity.
destruct (iter records) as [items|e]; simpl; [|reflexivity].
unfold progress. destruct (check =? 0); reflexivity.
Qed.

Lemma json_loop_reached (fuel : nat) (check : Z) (search_parameters : Params)
      (all_records : list PyVal) (total : option Z) (logs : list Log) (w : World) :
reached all_records total = true ->
json_loop undl_request fuel check search_parameters all_records total logs w
= Done (logs, all_records) w.
Proof.
intro H. destruct fuel; simpl; now rewrite H.
Qed.

(** Once more items are held than the total says, the loop never ends
    with a result: the list only grows. *)
Lemma json_loop_overshoot (check : Z) (fuel : nat) :
forall (search_parameters : Params) (all_records : list PyVal) (t : Z)
       (logs : list Log) (w : World) (res : list Log * list PyVal) (w' : World),
  t < Z.of_nat (length all_records) ->
  json_loop undl_request fuel check search_parameters all_records (Some t) logs w
  <> Done res w'.
Proof.
induction fuel as [|fuel IH]; intros sp all t logs w res w' Hover;
  assert (Hnot : reached all (Some t) = false) by (apply Z.eqb_neq; lia).
- cbn [json_loop]. rewrite Hnot. discriminate.
- rewrite json_loop_step, Hnot.
  destruct (undl_request sp w) as [[sp' [log records]] w1| |]; try discriminate.
  destruct (iter records) as [items|e]; [|discriminate].
  destruct (check =? 0); [discriminate|].
  apply IH. rewrite length_app. lia.
Qed.

End DriverFacts.

(** Pure steps leave the world as it is. *)
Lemma bind_lift_inv (A B : Type) (o : outcome A) (k : A -> M B)
      (w : World) (res : B) (w' : World) :
  bindM (lift o) k w = Done res w' ->
  exists a, o = Return a /\ k a w = Done res w'.
Proof.
  destruct o as [a|e]; unfold bindM, lift, ret, raise; simpl.
  - intro H. now exists a.
  - discriminate.
Qed.

Ltac bind_inv H :=
  let a := fresh "a" in
  let E := fresh "E" in
  apply bind_lift_inv in H; destruct H as (a & E & H).

Section FetcherFacts.

Variable server : nat -> Request -> Reply.
Variable key : string.
Variable xmltodict_parse : string -> outcome PyVal.
Variable json : Response -> option PyVal.

Let request := undl_request server (Return key) xmltodict_parse json.

(** A page with status 200, a total, a cursor and a list of records. *)
Lemma undl_request_page (parameters : Params) (w : World) (r : Response)
      (total cursor : PyVal) (records : list PyVal) (n : Z) :
  server (length (sent w)) (json_request (with_format parameters) key) = Answer r ->
  status_code r = 200 ->
  xmltodict_parse (body r) = Return (envelope total cursor (PList records)) ->
  int total = Return n ->
  request parameters w
  = Done (with_format parameters,
          ({| log_status := Some 200; log_total := Some n;
              log_count := Z.of_nat (length records);
              log_error := None; log_search_id := cursor |},
           PList records))
         {| sent := sent w ++ [json_request (with_format parameters) key];
            slept := slept w |}.
Proof.
  intros Hreply Hstatus Hparse Hint.
  unfold request, undl_request, bindM, lift, ret. simpl.
  unfold bindM, requests_get. fold (with_format parameters).
  rewrite Hreply, Hstatus. simpl.
  unfold page, bindM, lift. rewrite Hparse. simpl.
  rewrite Hint. simpl. reflexivity.
Qed.

Lemma with_format_again (parameters : Params) (cursor : PyVal) :
with_format (dict_set String.eqb "search_id" cursor (with_format parameters))
= dict_set String.eqb "search_id" cursor (with_format parameters).
Proof.
unfold with_format at 1. apply dict_set_idem.
rewrite dict_get_set_other; [| exact String.eqb_eq | discriminate].
apply dict_get_set_same. exact String.eqb_eq.
Qed.

(** X25: the answer 429 twice: one pause and one retry with the same request,
    a second pause, and the result has the status 429 and the message of
    the rate limit as its error. *)
Lemma undl_request_rate_limited (parameters : Params) (r1 r2 : Response) :
let rq := json_request (with_format parameters) key in
server 0%nat rq = Answer r1 -> status_code r1 = 429 ->
server 1%nat rq = Answer r2 -> status_code r2 = 429 ->
request parameters start
= Done (with_format parameters,
        ({| log_status := Some 429; log_total := None; log_count := 0;
            log_error := Some rate_limit_message; log_search_id := PNone |},
         PList []))
       {| sent := [rq; rq]; slept := 600 |}.
Proof.
intros rq H1 Hs1 H2 Hs2. subst rq.
unfold request, undl_request, bindM, lift, ret. simpl.
unfold bindM, requests_get. simpl.
rewrite H1, Hs1. simpl. rewrite H2, Hs2. reflexivity.
Qed.

Lemma finish_world (status total : option Z) (records : PyVal)
      (error : option string) (cursor : PyVal) (w : World)
      (res : Log * PyVal) (w' : World) :
finish status total records error cursor w = Done res w' -> w' = w.
Proof.
unfold finish. intro H. bind_inv H. unfold ret in H. congruence.
Qed.

Lemma page_world (r : Response) (error : option string) (w : World)
      (res : Log * PyVal) (w' : World) :
page xmltodict_parse r error w = Done res w' -> w' = w.
Proof.
unfold page. intro H. do 7 bind_inv H.
destruct a5; [bind_inv H|]; exact (finish_world _ _ _ _ _ _ H).
Qed.

(** The answer 429 and then another answer: the second request is the
    first one again, 300 seconds later. *)
Lemma undl_request_retries_same_request (parameters : Params) (r1 : Response) :
let rq := json_request (with_format parameters) key in
server 0%nat rq = Answer r1 -> status_code r1 = 429 ->
forall res w, request parameters start = Done res w ->
  sent w = [rq; rq] /\ 300 <= slept w.
Proof.
intros rq H1 Hs1 res w. subst rq.
unfold request, undl_request, bindM, lift, ret. simpl.
unfold bindM, requests_get. simpl.
rewrite H1, Hs1. simpl.
destruct (server 1%nat (json_request (with_format parameters) key)) as [r2|msg|st msg].
- destruct (status_code r2 =? 429) eqn:E429; simpl.
  + intros [= _ <-]. simpl. split; [reflexivity | lia].
  + destruct (status_code r2 =? 200) eqn:E200; simpl.
    * match goal with
      | |- context [page _ _ _ ?w0] =>
          destruct (page xmltodict_parse r2 (Some rate_limit_message) w0)
            as [res' w'| |] eqn:Hpage; try discriminate
      end.
      apply page_world in Hpage. subst w'.
      intros [= _ <-]. simpl. split; [reflexivity | lia].
    * destruct (json r2); intros [= _ <-]; simpl; split; (reflexivity || lia).
- intros [= _ <-]. simpl. split; [reflexivity | lia].
- destruct (st =? 429); simpl; intros [= _ <-]; simpl; split; (reflexivity || lia).
Qed.

(** Every request of one call of [undl_request] is the same request, and
    there are at most as many as attempts are left. *)
Lemma attempt_sent (left : nat) (rq : Request) :
forall (status : option Z) (error : option string) (w : World)
       (res : Log * PyVal) (w' : World),
  attempt server xmltodict_parse json left rq status error w = Done res w' ->
  exists n, (n <= left)%nat /\ sent w' = (sent w ++ repeat rq n)%list.
Proof.
induction left as [|left IH]; intros status error w res w'; simpl.
- intro H. apply finish_world in H. subst w'.
  exists 0%nat. split; [lia | now rewrite app_nil_r].
- unfold bindM at 1. unfold requests_get.
  set (w1 := {| sent := sent w ++ [rq]; slept := slept w |}).
  assert (Hone : forall w2, w2 = w1 ->
                 exists n, (n <= S left)%nat /\ sent w2 = (sent w ++ repeat rq n)%list).
  { intros w2 ->. exists 1%nat. split; [lia | reflexivity]. }
  destruct (server (length (sent w)) rq) as [r|msg|st msg].
  + destruct (status_code r =? 429).
    * unfold bindM at 1. unfold sleep. intro H. apply IH in H.
      destruct H as (n & Hn & Hsent). exists (S n). split; [lia|].
      rewrite Hsent. simpl. rewrite <- app_assoc. reflexivity.
    * destruct (negb (status_code r =? 200)).
      -- destruct (json r); intro H; apply finish_world in H; now apply Hone.
      -- intro H. apply page_world in H. now apply Hone.
  + intro H. apply finish_world in H. now apply Hone.
  + destruct (st =? 429).
    * unfold bindM at 1. unfold sleep. intro H. apply IH in H.
      destruct H as (n & Hn & Hsent). exists (S n). split; [lia|].
      rewrite Hsent. simpl. rewrite <- app_assoc. reflexivity.
    * intro H. apply finish_world in H. now apply Hone.
Qed.

Lemma undl_request_sent (parameters : Params) (w : World)
      (parameters' : Params) (res : Log * PyVal) (w' : World) :
request parameters w = Done (parameters', res) w' ->
parameters' = with_format parameters
/\ exists n, sent w' = (sent w ++ repeat (json_request (with_format parameters) key) n)%list.
Proof.
cbv beta iota zeta delta [request undl_request bindM lift ret].
destruct (attempt server xmltodict_parse json 2
                  (json_request (with_format parameters) key) None None w)
  as [res0 w0| |] eqn:H; try discriminate.
intros [= <- <- <-]. split; [reflexivity|].
apply attempt_sent in H. destruct H as (n & _ & Hn). now exists n.
Qed.

Lemma with_format_idem (parameters : Params) :
with_format (with_format parameters) = with_format parameters.
Proof.
unfold with_format at 1. apply dict_set_idem.
apply dict_get_set_same. exact String.eqb_eq.
Qed.

(** A pure step leaves the world as it is, also when it raises. *)
Lemma bind_lift_after (A B : Type) (o : outcome A) (k : A -> M B) (w : World) :
(forall a, world_after (k a w) = w) ->
world_after (bindM (lift o) k w) = w.
Proof.
intro H. destruct o as [a|e]; unfold bindM, lift, ret, raise; simpl; [apply H | reflexivity].
Qed.

Lemma finish_after (status total : option Z) (records : PyVal)
      (error : option string) (cursor : PyVal) (w : World) :
world_after (finish status total records error cursor w) = w.
Proof.
unfold finish. apply bind_lift_after. reflexivity.
Qed.

Lemma page_after (r : Response) (error : option string) (w : World) :
world_after (page xmltodict_parse r error w) = w.
Proof.
unfold page. repeat (apply bind_lift_after; intro).
match goal with |- context [if ?b then _ else _] => destruct b end;
  [apply bind_lift_after; intro|]; apply finish_after.
Qed.

(** However a call of [undl_request] ends, all its requests are one and
    the same request. *)
Lemma attempt_after (left : nat) (rq : Request) :
forall (status : option Z) (error : option string) (w : World),
  exists n,
    sent (world_after (attempt server xmltodict_parse json left rq status error w))
    = (sent w ++ repeat rq n)%list.
Proof.
induction left as [|left IH]; intros status error w; cbn [attempt].
- rewrite finish_after. exists 0%nat. now rewrite app_nil_r.
- unfold bindM at 1. unfold requests_get.
  set (w1 := {| sent := sent w ++ [rq]; slept := slept w |}).
  assert (Hretry : forall st,
    exists n, sent (world_after
                      ((_ <- sleep 300 ;;
                        attempt server xmltodict_parse json left rq (Some st)
                                (Some rate_limit_message))%py w1))
              = (sent w ++ repeat rq n)%list).
  { intro st. unfold bindM at 1. unfold sleep.
    destruct (IH (Some st) (Some rate_limit_message)
                 {| sent := sent w1; slept := slept w1 + 300 |}) as [n Hn].
    exists (S n). rewrite Hn. simpl. rewrite <- app_assoc. reflexivity. }
  destruct (server (length (sent w)) rq) as [r|msg|st msg].
  + destruct (status_code r =? 429); [apply Hretry|].
    exists 1%nat.
    destruct (negb (status_code r =? 200));
      [destruct (json r); now rewrite finish_after | now rewrite page_after].
  + exists 1%nat. now rewrite finish_after.
  + destruct (st =? 429); [apply Hretry|].
    exists 1%nat. now rewrite finish_after.
Qed.

Lemma undl_request_after (parameters : Params) (w : World) :
exists n,
  sent (world_after (request parameters w))
  = (sent w ++ repeat (json_request (with_format parameters) key) n)%list.
Proof.
destruct (attempt_after 2 (json_request (with_format parameters) key) None None w)
  as [n Hn].
exists n. rewrite <- Hn.
cbv beta iota zeta delta [request undl_request bindM lift ret].
now destruct (attempt server xmltodict_parse json 2
                      (json_request (with_format parameters) key) None None w).
Qed.

(** X21: once the total is known the parameters of [get_records_json] do not
    change any more: all the requests that follow are one and the same
    request, whatever cursors the pages bring.  This holds of every run,
    however it ends: with a result, with an exception, or cut after any
    number of passes of a loop that goes on. *)
Theorem json_loop_same_request (check : Z) (fuel : nat) :
forall (search_parameters : Params) (all_records : list PyVal) (t : Z)
       (logs : list Log) (w : World),
  exists n,
    sent (world_after (json_loop request fuel check
                                 (with_format search_parameters) all_records
                                 (Some t) logs w))
    = (sent w ++ repeat (json_request (with_format search_parameters) key) n)%list.
Proof.
assert (Hnone : forall (rq : Request) (w : World),
          exists n, sent w = (sent w ++ repeat rq n)%list).
{ intros rq w. exists 0%nat. now rewrite app_nil_r. }
induction fuel as [|fuel IH]; intros sp all t logs w.
- cbn [json_loop]. unfold ret. destruct (reached all (Some t)); apply Hnone.
- rewrite json_loop_step.
  destruct (reached all (Some t)); [apply Hnone|].
  destruct (undl_request_after (with_format sp) w) as [n Hn].
  rewrite with_format_idem in Hn.
  destruct (request (with_format sp) w) as [[sp' [log records]] w1|e w1|w1] eqn:Hreq;
    cbn [world_after] in Hn; try (now exists n).
  apply undl_request_sent in Hreq. destruct Hreq as (-> & _).
  rewrite with_format_idem.
  destruct (iter records) as [items|e]; [|now exists n].
  destruct (check =? 0); [now exists n|].
  destruct (IH sp (all ++ items)%list t (logs ++ [log])%list w1) as [m Hm].
  exists (n + m)%nat. rewrite Hm, Hn, repeat_app, app_assoc. reflexivity.
Qed.

(** X26: a status that is neither 200 nor 429, with a body that [r.json()]
    reads: the error of the result stays empty. *)
Lemma undl_request_other_status (parameters : Params) (r : Response) (message : PyVal) :
let rq := json_request (with_format parameters) key in
server 0%nat rq = Answer r ->
status_code r <> 200 -> status_code r <> 429 ->
json r = Some message ->
request parameters start
= Done (with_format parameters,
        ({| log_status := Some (status_code r); log_total := None; log_count := 0;
            log_error := None; log_search_id := PNone |},
         PList []))
       {| sent := [rq]; slept := 0 |}.
Proof.
intros rq H Hn200 Hn429 Hj. subst rq.
apply Z.eqb_neq in Hn200, Hn429.
unfold request, undl_request, bindM, lift, ret. simpl.
unfold bindM, requests_get. simpl.
rewrite H, Hn429, Hn200. simpl. rewrite Hj. reflexivity.
Qed.

(** X27: a page with status 200 whose body has no cursor: the call returns, the
    cursor of the log is None and no error is recorded. *)
Lemma undl_request_missing_cursor (parameters : Params) (r : Response)
      (total : PyVal) (n : Z) (records : list PyVal) :
let rq := json_request (with_format parameters) key in
server 0%nat rq = Answer r ->
status_code r = 200 ->
xmltodict_parse (body r)
= Return (PDict [(Some "response",
                  PDict [(Some "total", total);
                         (Some "collection", PDict [(Some "record", PList records)])])]) ->
int total = Return n ->
request parameters start
= Done (with_format parameters,
        ({| log_status := Some 200; log_total := Some n;
            log_count := Z.of_nat (length records);
            log_error := None; log_search_id := PNone |},
         PList records))
       {| sent := [rq]; slept := 0 |}.
Proof.
intros rq H Hs Hp Hn. subst rq.
unfold request, undl_request, bindM, lift, ret. simpl.
unfold bindM, requests_get. simpl.
rewrite H, Hs. simpl.
unfold page, bindM, lift. rewrite Hp. simpl. rewrite Hn. reflexivity.
Qed.

End FetcherFacts.

Section XmlFacts.

Variable server : nat -> Request -> Reply.
Variable key : string.
Variable fromstring : string -> option Element.
Variable findall : Element -> string -> outcome (list Element).

Let retrieve := get_records_xml server (Return key) fromstring findall.

(** X28: after a 429 the status of the second reply is not read: whatever it
    is, a body that does not parse ends the retrieval with the records
    gathered so far, here none. *)
Lemma get_records_xml_second_status_unread
      (parameters : Params) (check : Z) (fuel : nat) (r1 r2 : Response) :
let rq := xml_request parameters key in
server 0%nat rq = Answer r1 -> status_code r1 = 429 ->
server 1%nat rq = Answer r2 ->
fromstring (PyStr.replace (body r2) marc_namespace EmptyString) = None ->
retrieve (S fuel) parameters None check start
= Done (Elem "collection" [] None []) {| sent := [rq; rq]; slept := 300 |}.
Proof.
intros rq H1 Hs1 H2 Hparse. subst rq.
unfold retrieve, get_records_xml, bindM, lift, ret. simpl.
unfold bindM, get_or_raise, bindM, requests_get. simpl.
rewrite H1. simpl. rewrite Hs1. simpl. rewrite H2. simpl.
unfold xml_page. rewrite Hparse. reflexivity.
Qed.

(** X29: a first page that parses and has no [search_id] element ends the
    retrieval with AttributeError. *)
Lemma get_records_xml_missing_cursor
      (parameters : Params) (check : Z) (fuel : nat) (r : Response)
      (response : Element) :
let rq := xml_request parameters key in
server 0%nat rq = Answer r -> status_code r = 200 ->
fromstring (PyStr.replace (body r) marc_namespace EmptyString) = Some response ->
findall response "search_id" = Return [] ->
retrieve (S fuel) parameters None check start
= Failed AttributeError {| sent := [rq]; slept := 0 |}.
Proof.
intros rq H Hs Hparse Hfind. subst rq.
unfold retrieve, get_records_xml, bindM, lift, ret. simpl.
unfold bindM, get_or_raise, bindM, requests_get. simpl.
rewrite H. simpl. rewrite Hs. simpl.
unfold xml_page. rewrite Hparse.
unfold bindM, lift, find, bind. rewrite Hfind. reflexivity.
Qed.

End XmlFacts.

(** An empty page, at the third request or later. *)
Lemma undl_request_empty_page (parameters : Params) (w : World) :
  (2 <= length (sent w))%nat ->
  undl_request then_empty (Return "token") api_2_1_0 json_of parameters w
  = Done (with_format parameters,
          (page_log 3 0 (Some "200: No records") "c3", PList []))
         {| sent := sent w ++ [json_request (with_format parameters) "token"];
            slept := slept w |}.
Proof.
  intro H.
  cbv beta iota zeta delta [undl_request bindM lift ret].
  cbn [attempt]. unfold bindM at 1. unfold requests_get at 1. unfold then_empty at 1.
  destruct (length (sent w)) as [|[|n]]; try lia.
  vm_compute. reflexivity.
Qed.

(** With four items for a total of three, and only empty pages to come,
    every pass of the loop sends one more request. *)
Lemma json_loop_goes_on (fuel : nat) :
  forall (search_parameters : Params) (all_records : list PyVal)
         (logs : list Log) (w : World),
    3 < Z.of_nat (length all_records) ->
    (2 <= length (sent w))%nat ->
    exists w',
      json_loop (undl_request then_empty (Return "token") api_2_1_0 json_of)
                fuel 1000 search_parameters all_records (Some 3) logs w
      = OutOfFuel w'
      /\ length (sent w') = (length (sent w) + fuel)%nat.
Proof.
  induction fuel as [|fuel IH]; intros sp all logs w Hover Hsent;
    assert (Hnot : reached all (Some 3) = false) by (apply Z.eqb_neq; lia).
  - cbn [json_loop]. rewrite Hnot. exists w. split; [reflexivity | lia].
  - rewrite json_loop_step, Hnot.
    rewrite (undl_request_empty_page sp w Hsent).
    cbn [iter Z.eqb]. rewrite app_nil_r.
    match goal with
    | |- context [json_loop _ fuel 1000 ?sp' all (Some 3) ?logs' ?w1] =>
        destruct (IH sp' all logs' w1 Hover) as (w' & Hrun & Hlen)
    end.
    + cbn [sent]. rewrite length_app. simpl. lia.
    + exists w'. split; [exact Hrun|].
      rewrite Hlen. cbn [sent]. rewrite length_app. simpl. lia.
Qed.

(** C8: the API reports the total 3 and delivers a page of two records, a
    page of one record and then empty pages.  The page of one record comes
    out of [xmltodict.parse] as the dictionary of that record, not as a
    list: its count in the log is 2, the number of its keys, and the keys
    are what [extend] adds.  Four items are held for a total of three, and
    the loop never ends: after any number of passes it has sent that many
    requests and would go on. *)
Theorem get_records_json_counts_keys_of_single_record :
  (exists log record w,
      undl_request then_empty (Return "token") api_2_1_0 json_of
                   first_cursor after_first_page
      = Done (first_cursor, (log, record)) w
      /\ record = Xmltodict.item (titled "3" "Three")
      /\ log_count log = 2
      /\ iter record = Return [PStr "controlfield"; PStr "datafield"])
  /\ forall fuel,
      exists w,
        get_records_json (undl_request then_empty (Return "token") api_2_1_0 json_of)
                         fuel water 1000 start
        = OutOfFuel w
        /\ length (sent w) = fuel.
Proof.
  split.
  - eexists _, _, _. split; [vm_compute; reflexivity|]. repeat split.
  - intros [|[|fuel]].
    + eexists. split; reflexivity.
    + eexists. split; [vm_compute; reflexivity | reflexivity].
    + unfold get_records_json.
      rewrite json_loop_step. cbn [reached].
      destruct (undl_request then_empty (Return "token") api_2_1_0 json_of water start)
        as [[p1 [log1 records1]] w1| |] eqn:H1; vm_compute in H1; try discriminate.
      injection H1 as <- <- <- <-.
      cbn [iter Z.eqb log_search_id log_total app].
      rewrite json_loop_step. cbn [reached length Z.of_nat Z.eqb Pos.of_succ_nat Pos.succ Pos.eqb].
      match goal with
      | |- context [undl_request ?a ?b ?c ?d ?p ?w0] =>
          destruct (undl_request a b c d p w0)
            as [[p2 [log2 records2]] w2| |] eqn:H2; vm_compute in H2; try discriminate
      end.
      injection H2 as <- <- <- <-.
      cbn [iter Z.eqb map fst of_text app].
      match goal with
      | |- context [json_loop _ fuel 1000 ?sp ?all (Some 3) ?logs ?w2] =>
          destruct (json_loop_goes_on fuel sp all logs w2) as (w' & Hrun & Hlen)
      end.
      * simpl. lia.
      * simpl. lia.
      * exists w'. split; [exact Hrun|]. rewrite Hlen. reflexivity.
Qed.

(** The hand-over of a record that has only its control field. *)
Lemma xmltodict_item_of_record : Xmltodict.item (marc "3" []) = raw "3".
Proof. reflexivity. Qed.

(** The same API with a second page of two records and the total 4: the
    records of each page come as a list, and the loop ends after the
    second request with the four records. *)
Lemma get_records_json_stops_after_pages_of_two :
  exists logs w,
    get_records_json (undl_request then_empty (Return "token") api_2_2_0 json_of)
                     5 water 1000 start
    = Done (logs, map Xmltodict.item
                      [titled "1" "One"; titled "2" "Two";
                       titled "3" "Three"; titled "4" "Four"]) w
    /\ map log_count logs = [2; 2]
    /\ map cursor_sent (sent w) = [None; Some (PStr "c1")].
Proof.
  eexists _, _. split; [vm_compute; reflexivity|]. split; reflexivity.
Qed.

(** A record with a single child: the count of its page is 1 and the run
    ends, with the key of the record as the third item. *)
Lemma get_records_json_adds_key_of_record :
  exists logs w,
    get_records_json (undl_request then_empty (Return "token") pages_2_1_0 json_of)
                     5 water 1000 start
    = Done (logs, [raw "1"; raw "2"; PStr "controlfield"]) w
    /\ map log_count logs = [2; 1].
Proof.
  eexists _, _. split; [vm_compute; reflexivity|]. reflexivity.
Qed.

(** C1: three pages of two records with the cursors c1, c2 and c3.  The
    pages come back with their cursors, yet [get_records_json] sends the
    third request with the cursor c1 of the first page, not with the cursor
    c2 of the page before it: the cursor is stored while the total is
    unknown, that is once. *)
Theorem get_records_json_keeps_first_cursor :
  exists logs records w,
    get_records_json
      (undl_request (script [ok "page 1"; ok "page 2"; ok "page 3"]) (Return "token")
                    pages_2_2_2 json_of)
      5 water 1000 start
    = Done (logs, records) w
    /\ records = [raw "1"; raw "2"; raw "3"; raw "4"; raw "5"; raw "6"]
    /\ map log_search_id logs = [PStr "c1"; PStr "c2"; PStr "c3"]
    /\ map cursor_sent (sent w) = [None; Some (PStr "c1"); Some (PStr "c1")]
    /\ map params (sent w)
       = [[("p", PStr "water"); ("format", PStr "xml")];
          [("p", PStr "water"); ("format", PStr "xml"); ("search_id", PStr "c1")];
          [("p", PStr "water"); ("format", PStr "xml"); ("search_id", PStr "c1")]].
Proof.
  eexists _, _, _. split; [vm_compute; reflexivity|]. repeat split; reflexivity.
Qed.

(** On the same three pages [get_records_xml] sends every request with the
    cursor of the page before it. *)
Lemma get_records_xml_follows_cursor :
  exists tree w,
    get_records_xml (script [ok "page 1"; ok "page 2"; ok "page 3"; ok "page 4"])
                    (Return "token") trees_2_2_2 ElementPath.findall
                    5 water None 1000 start
    = Done tree w
    /\ children tree = [marc "1" []; marc "2" []; marc "3" [];
                         marc "4" []; marc "5" []; marc "6" []]
    /\ map cursor_sent (sent w)
       = [None; Some (PStr "c1"); Some (PStr "c2"); Some (PStr "c3")].
Proof.
  eexists _, _. split; [vm_compute; reflexivity|]. repeat split; reflexivity.
Qed.

(** C5: the server answers 429 twice and [get_records_xml] does not look at
    the status of the retry: it reads the body of the second 429 as a page,
    fails to parse it, leaves the loop and returns an empty collection,
    the very result of a search that finds nothing.  Nothing in the result
    tells of the rate limit. *)
Theorem get_records_xml_ignores_second_429 :
  let rq := xml_request water "token" in
  get_records_xml (script [status_only 429 "Too Many Requests";
                           status_only 429 "Too Many Requests"])
                  (Return "token") trees_2_2_2 ElementPath.findall
                  5 water None 1000 start
  = Done (Elem "collection" [] None []) {| sent := [rq; rq]; slept := 300 |}
  /\ get_records_xml (script [ok "page 4"])
                     (Return "token") trees_2_2_2 ElementPath.findall
                     5 water None 1000 start
     = Done (Elem "collection" [] None []) {| sent := [rq]; slept := 0 |}.
Proof. split; reflexivity. Qed.

(** C6: the server answers 500 with a JSON body that [r.json()] reads.
    [undl_request] stops and returns, and the error of its result is None:
    the parsed message is not kept.  Only a body that cannot be read leaves
    a note in the error. *)
Theorem undl_request_drops_parsed_error :
  undl_request (script [status_only 500 error_body]) (Return "token")
               pages_2_1_0 json_of water start
  = Done (with_format water,
          ({| log_status := Some 500; log_total := None; log_count := 0;
              log_error := None; log_search_id := PNone |},
           PList []))
         {| sent := [json_request (with_format water) "token"]; slept := 0 |}
  /\ undl_request (script [status_only 502 "Bad Gateway"]) (Return "token")
                  pages_2_1_0 json_of water start
     = Done (with_format water,
             ({| log_status := Some 502; log_total := None; log_count := 0;
                 log_error := Some "502: Unable to parse error message";
                 log_search_id := PNone |},
              PList []))
            {| sent := [json_request (with_format water) "token"]; slept := 0 |}.
Proof. split; reflexivity. Qed.

(** C7: a page with status 200, a total and a collection, and no cursor.
    [get_records_xml] takes the text of the element it did not find and
    ends with AttributeError; on the page in its dictionary form
    [undl_request] returns with an empty cursor. *)
Theorem get_records_xml_raises_without_cursor :
  get_records_xml (script [ok "no result"]) (Return "token")
                  tree_without_cursor ElementPath.findall 5 water None 1000 start
  = Failed AttributeError {| sent := [xml_request water "token"]; slept := 0 |}
  /\ undl_request (script [ok "no result"]) (Return "token")
                  (decoder [("no result", envelope_exhausted (PStr "0"))])
                  json_of water start
     = Done (with_format water,
             ({| log_status := Some 200; log_total := Some 0; log_count := 0;
                 log_error := Some "200: No records"; log_search_id := PNone |},
              PList []))
            {| sent := [json_request (with_format water) "token"]; slept := 0 |}.
Proof. split; reflexivity. Qed.

(** * Further properties *)

Unset Implicit Arguments.

(** ** Strings *)

Lemma has_char_append (c : ascii) (b r : string) :
  has_char c (b ++ String c r) = true.
Proof.
  induction b as [|a b IH]; simpl.
  - now rewrite Ascii.eqb_refl.
  - rewrite IH. apply orb_true_r.
Qed.

(** Two texts without the character [c], each followed by [c]: the texts
    and what follows are equal as soon as the whole strings are. *)
Lemma split_at_char (c : ascii) :
  forall a b r1 r2 : string,
    has_char c a = false -> has_char c b = false ->
    a ++ String c r1 = b ++ String c r2 ->
    a = b /\ r1 = r2.
Proof.
  induction a as [|x a IH]; intros [|y b] r1 r2 Ha Hb; simpl in *.
  - intros [= ->]. now split.
  - intros [= <- _]. now rewrite Ascii.eqb_refl in Hb.
  - intros [= -> _]. now rewrite Ascii.eqb_refl in Ha.
  - apply orb_false_elim in Ha as [_ Ha]. apply orb_false_elim in Hb as [_ Hb].
    intros [= -> H]. destruct (IH b r1 r2 Ha Hb H) as [-> ->]. now split.
Qed.

Lemma append_injective_l (p a b : string) : p ++ a = p ++ b -> a = b.
Proof.
  induction p as [|c p IH]; simpl; [easy|]. intros [= H]. now apply IH.
Qed.

Lemma map_str_strings (repr : PyVal -> string) (l : list string) :
  map (str repr) (map PStr l) = l.
Proof.
  induction l as [|s l IH]; simpl; [reflexivity | now rewrite IH].
Qed.

Lemma concat_bar_cons (a : string) (l : list string) :
  l <> [] ->
  String.concat "|" (a :: l) = a ++ String bar (String.concat "|" l).
Proof.
  destruct l as [|b l]; [easy|]. reflexivity.
Qed.

Lemma concat_bar_injective :
  forall l1 l2 : list string,
    l1 <> [] -> l2 <> [] ->
    Forall (fun s => has_char bar s = false) l1 ->
    Forall (fun s => has_char bar s = false) l2 ->
    String.concat "|" l1 = String.concat "|" l2 ->
    l1 = l2.
Proof.
  induction l1 as [|a l1 IH]; intros [|b l2] H1 H2 F1 F2; try easy.
  inversion F1 as [|? ? Ha F1']; subst. inversion F2 as [|? ? Hb F2']; subst.
  destruct l1 as [|a' l1], l2 as [|b' l2].
  - simpl. now intros ->.
  - rewrite (@concat_bar_cons b (b' :: l2)) by easy. simpl String.concat at 1.
    intro H. rewrite H in Ha. now rewrite has_char_append in Ha.
  - rewrite (@concat_bar_cons a (a' :: l1)) by easy. simpl String.concat at 2.
    intro H. rewrite <- H in Hb. now rewrite has_char_append in Hb.
  - rewrite (@concat_bar_cons a (a' :: l1)), (@concat_bar_cons b (b' :: l2)) by easy.
    intro H. destruct (@split_at_char bar a b _ _ Ha Hb H) as [-> Hrest].
    f_equal. apply IH; easy.
Qed.

(** ** Delimiter joiner *)

(** X1: two lists of strings, not empty and without the bar in any string,
    that [clean] joins to the same text are the same list. *)
Theorem clean_injective (repr : PyVal -> string) (l1 l2 : list string) :
  l1 <> [] -> l2 <> [] ->
  Forall (fun s => has_char bar s = false) l1 ->
  Forall (fun s => has_char bar s = false) l2 ->
  clean repr (PList (map PStr l1)) = clean repr (PList (map PStr l2)) ->
  l1 = l2.
Proof.
  intros H1 H2 F1 F2. simpl. rewrite !map_str_strings.
  intros [= H]. now apply concat_bar_injective.
Qed.

(** The empty list and the list of the empty string are joined to the
    same text. *)
Lemma clean_empty_collision (repr : PyVal -> string) :
  clean repr (PList []) = clean repr (PList [PStr EmptyString]).
Proof. reflexivity. Qed.

Lemma clean_injective_witness :
  ["a"; "b"] = ["a"; "b"].
Proof.
  apply (@clean_injective (fun _ => EmptyString) ["a"; "b"] ["a"; "b"]);
    try discriminate; try reflexivity; repeat constructor.
Defined.

(** ** Flattener and subfield projector on the values of [extract_xml] *)

Section TransformFacts.

Variable repr : PyVal -> string.
Variable findall : Element -> string -> outcome (list Element).
Variable record : Element.

Lemma str_of_text (t : option string) : str repr (of_text t) = fmt t.
Proof. now destruct t. Qed.

Lemma value_string_code_text (subs : list Element) :
value_string repr (map code_text subs)
= String.concat " " (map (fun s => fmt (text s)) subs).
Proof.
unfold value_string. rewrite map_map. f_equal.
apply map_ext. intro s. apply str_of_text.
Qed.

Lemma flatten_field_texts (l : list (option string)) :
flatten_field repr (map of_text l) = [].
Proof.
induction l as [|[s|] l IH]; simpl; auto.
Qed.

Lemma extracted_values_code_value (k : key) (matches : list Element) :
extracted_values (map code_value matches) k
= flat_map (fun m => match last_text k m with
                     | Some x => [x]
                     | None => []
                     end) matches.
Proof.
induction matches as [|m matches IH]; simpl; [reflexivity|].
rewrite code_value_lookup. unfold last_text. simpl.
destruct (List.find (fun e => key_eqb k (get e "code")) (rev (xpath_subfields m)));
  simpl; now rewrite IH.
Qed.

Lemma flatten_field_code_values (matches : list Element) :
Forall (fun m => NoDup (map (fun s => get s "code") (xpath_subfields m))) matches ->
flatten_field repr (map code_value matches)
= map (fun m => PStr (String.concat " "
                        (map (fun s => fmt (text s)) (xpath_subfields m))))
      matches.
Proof.
induction 1 as [|m ms Hm _ IH]; [reflexivity|].
change (map code_value (m :: ms)) with (code_value m :: map code_value ms).
unfold code_value at 1. rewrite code_value_from by exact Hm.
cbn [flatten_field app map]. rewrite value_string_code_text. now rewrite IH.
Qed.

(** X2: the value of a "field" query whose matched fields have subfields
    of distinct codes is flattened to one string for each matched field,
    the texts of its subfields in document order with a blank between
    them, a missing text printed as None. *)
Theorem flatten_of_field_value (e : FieldSpec) (matches : list Element) :
findall record (query (get_query e)) = Return matches ->
matches <> [] ->
element e = "field" ->
Forall (fun m => NoDup (map (fun s => get s "code") (xpath_subfields m))) matches ->
exists v,
  extract_value findall record (get_query e) = Return v
  /\ flatten repr v
     = PList (map (fun m => PStr (String.concat " "
                                    (map (fun s => fmt (text s)) (xpath_subfields m))))
                  matches).
Proof.
intros Hq Hne Hkind Hcodes.
exists (shaped (element e) matches).
split; [exact (@extract_value_shaped findall record (get_query e) matches Hq)|].
rewrite Hkind. destruct matches as [|m0 rest]; [easy|].
change (shaped "field" (m0 :: rest)) with (PList (map code_value (m0 :: rest))).
cbn [flatten]. f_equal. now apply flatten_field_code_values.
Qed.

(** X3: the value of a query of another kind, a list of texts, is
    flattened to the empty list: every text is dropped. *)
Theorem flatten_of_subfield_value (e : FieldSpec) (matches : list Element) :
findall record (query (get_query e)) = Return matches ->
matches <> [] ->
element e <> "field" ->
exists v,
  extract_value findall record (get_query e) = Return v
  /\ v = PList (map (fun m => of_text (text m)) matches)
  /\ flatten repr v = PList [].
Proof.
intros Hq Hne Hkind.
exists (shaped (element e) matches).
split; [exact (@extract_value_shaped findall record (get_query e) matches Hq)|].
apply String.eqb_neq in Hkind.
destruct matches as [|m0 rest]; [easy|].
unfold shaped. rewrite Hkind. split; [reflexivity|].
cbn [flatten]. f_equal.
rewrite <- (map_map text of_text). apply flatten_field_texts.
Qed.

(** X4: on the value of a "field" query, [extract] with the code [k]
    gives, for each matched field that has a subfield with this code, the
    text of the last such subfield, in the order of the fields; it gives
    None when no matched field has one. *)
Theorem extract_of_field_value (e : FieldSpec) (matches : list Element) (k : key) :
findall record (query (get_query e)) = Return matches ->
matches <> [] ->
element e = "field" ->
exists v,
  extract_value findall record (get_query e) = Return v
  /\ extract v k
     = match flat_map (fun m => match last_text k m with
                                | Some x => [x]
                                | None => []
                                end) matches with
       | [] => PNone
       | values => PList values
       end.
Proof.
intros Hq Hne Hkind.
exists (shaped (element e) matches).
split; [exact (@extract_value_shaped findall record (get_query e) matches Hq)|].
rewrite Hkind. destruct matches as [|m0 rest]; [easy|].
change (shaped "field" (m0 :: rest)) with (PList (map code_value (m0 :: rest))).
unfold extract. now rewrite extracted_values_code_value.
Qed.

End TransformFacts.

Lemma flatten_of_field_value_witness :
  exists v,
    extract_value ElementPath.findall record42
                  (get_query (rule "245" "field" None None "title")) = Return v
    /\ flatten (fun _ => EmptyString) v = PList [PStr "x y"].
Proof.
  apply (@flatten_of_field_value (fun _ => EmptyString) ElementPath.findall record42
           (rule "245" "field" None None "title")
           [Elem "datafield" [("tag", "245"); ("ind1", "1")] None
                 [subfield "a" "x"; subfield "b" "y"]]).
  - reflexivity.
  - discriminate.
  - reflexivity.
  - repeat constructor; simpl; intuition discriminate.
Defined.

Lemma flatten_of_subfield_value_witness :
  exists v,
    extract_value ElementPath.findall record42
                  (get_query (rule "650" "subfield" (Some "a") None "subjects")) = Return v
    /\ v = PList [PStr "s1"; PStr "s2"; PStr "s3"]
    /\ flatten (fun _ => EmptyString) v = PList [].
Proof.
  apply (@flatten_of_subfield_value (fun _ => EmptyString) ElementPath.findall record42
           (rule "650" "subfield" (Some "a") None "subjects")
           [subfield "a" "s1"; subfield "a" "s2"; subfield "a" "s3"]).
  - reflexivity.
  - discriminate.
  - discriminate.
Defined.

Lemma extract_of_field_value_witness :
  exists v,
    extract_value ElementPath.findall record42
                  (get_query (rule "650" "field" None None "subjects")) = Return v
    /\ extract v (Some "a") = PList [PStr "s1"; PStr "s3"].
Proof.
  apply (@extract_of_field_value ElementPath.findall record42
           (rule "650" "field" None None "subjects")
           [Elem "datafield" [("tag", "650")] None [subfield "a" "s1"];
            Elem "datafield" [("tag", "650")] None [subfield "a" "s2"; subfield "a" "s3"]]
           (Some "a")).
  - reflexivity.
  - discriminate.
  - reflexivity.
Defined.

(** ** Identifier normalizer and link builder *)

Lemma rstrip_keeps_head (c : ascii) (s : string) :
  PyStr.isspace c = false ->
  PyStr.rstrip (String c s) = String c (PyStr.rstrip s).
Proof.
  intro H. simpl. destruct (PyStr.rstrip s); [now rewrite H | reflexivity].
Qed.

Lemma lstrip_head (s : string) (c : ascii) (r : string) :
  PyStr.lstrip s = String c r -> PyStr.isspace c = false.
Proof.
  induction s as [|a s IH]; simpl; [discriminate|].
  destruct (PyStr.isspace a) eqn:E; [exact IH|]. now intros [= <- _].
Qed.

Lemma append_nil_inv (r : string) (c : ascii) (t : string) :
  r ++ String c t <> EmptyString.
Proof. now destruct r. Qed.

Lemma rstrip_last (s : string) :
  forall r c, PyStr.rstrip s = r ++ String c EmptyString -> PyStr.isspace c = false.
Proof.
  induction s as [|a s IH]; intros r c; simpl.
  - intro H. symmetry in H. now apply append_nil_inv in H.
  - destruct (PyStr.rstrip s) as [|d t] eqn:E.
    + destruct (PyStr.isspace a) eqn:Ea.
      * intro H. symmetry in H. now apply append_nil_inv in H.
      * destruct r as [|x r]; simpl.
        -- now intros [= <-].
        -- intros [= _ H]. symmetry in H. now apply append_nil_inv in H.
    + destruct r as [|x r]; simpl.
      * discriminate.
      * intros [= _ H]. now apply (IH r c).
Qed.

Lemma strip_trimmed (s : string) : trimmed (PyStr.strip s).
Proof.
  unfold PyStr.strip. split.
  - intros c r H. destruct (PyStr.lstrip s) as [|a t] eqn:E; [discriminate|].
    pose proof E as Ha. apply lstrip_head in Ha.
    rewrite rstrip_keeps_head in H by exact Ha. now injection H as <- _.
  - intros r c H. eapply rstrip_last. exact H.
Qed.

(** X5: on a list, [convert_me_id] returns None or a string that neither
    starts nor ends with a blank. *)
Theorem convert_me_id_trimmed (l : list PyVal) :
  convert_me_id (PList l) = PNone
  \/ exists s, convert_me_id (PList l) = PStr s /\ trimmed s.
Proof.
  simpl. induction l as [|v l IH]; [now left|].
  destruct v; simpl; try exact IH.
  destruct (PyStr.startswith s "(DHL)"); [|exact IH].
  right. eexists. split; [reflexivity | apply strip_trimmed].
Qed.

Lemma replace_scan_absent (old new s : string) :
  PyStr.contains s old = false -> PyStr.replace_scan old new 0 s = s.
Proof.
  induction s as [|c s IH]; [reflexivity|].
  intro H. cbn [PyStr.contains] in H. apply orb_false_elim in H as [Hp Hc].
  cbn [PyStr.replace_scan]. rewrite Hp. now rewrite IH.
Qed.

Lemma substring_all (s : string) : String.substring 0 (String.length s) s = s.
Proof.
  induction s as [|c s IH]; simpl; [reflexivity | now rewrite IH].
Qed.

Lemma prefix_split (p : string) :
  forall s, String.prefix p s = true ->
            s = p ++ remove_prefix s p.
Proof.
  unfold remove_prefix.
  induction p as [|a p IH]; intros s H; simpl.
  - rewrite Nat.sub_0_r. now rewrite substring_all.
  - destruct s as [|b s]; [discriminate|]. simpl in H.
    destruct (ascii_dec a b) as [->|]; [|discriminate].
    simpl. f_equal. now apply IH.
Qed.

Lemma replace_marker (r : string) :
  PyStr.contains r "(DHL)" = false ->
  PyStr.replace ("(DHL)" ++ r) "(DHL)" EmptyString = r.
Proof.
  intro H. unfold PyStr.replace. simpl.
  assert (Hnil : String.prefix EmptyString r = true) by now destruct r.
  rewrite Hnil. now apply replace_scan_absent.
Qed.

(** X6: when no string of the list holds the marker again after its first
    five characters, [convert_me_id] does what its docstring says: the
    prefix of the first marked string is removed, and the blanks around. *)
Theorem convert_me_id_meets_docstring (l : list PyVal) :
  Forall (fun v => forall s, v = PStr s ->
                   PyStr.contains (remove_prefix s "(DHL)") "(DHL)" = false) l ->
  convert_me_id (PList l) = convert_me_id_documented (PList l).
Proof.
  simpl. induction 1 as [|v l Hv _ IH]; [reflexivity|].
  destruct v; simpl; try exact IH.
  destruct (PyStr.startswith s "(DHL)") eqn:E; [|exact IH].
  do 2 f_equal. specialize (Hv s eq_refl).
  unfold PyStr.startswith in E. apply prefix_split in E.
  rewrite E at 1. now apply replace_marker.
Qed.

Lemma convert_me_id_meets_docstring_witness :
  convert_me_id (PList [PInt 7; PStr "other"; PStr "(DHL)12345 "; PStr "(DHL)6"])
  = convert_me_id_documented
      (PList [PInt 7; PStr "other"; PStr "(DHL)12345 "; PStr "(DHL)6"]).
Proof.
  apply convert_me_id_meets_docstring.
  repeat constructor; intros s [= <-]; reflexivity.
Defined.

(** X7: a list without any string that starts with the marker: the link
    built on what [convert_me_id] returns is the template followed by the
    text None. *)
Theorem add_links_of_missing_id (repr : PyVal -> string) (l : list PyVal)
        (template : string) :
  Forall (fun v => forall s, v = PStr s -> PyStr.startswith s "(DHL)" = false) l ->
  add_links repr (convert_me_id (PList l)) template = template ++ "None".
Proof.
  intro H. unfold add_links. f_equal. simpl.
  induction H as [|v l Hv _ IH]; [reflexivity|].
  destruct v; simpl; try exact IH.
  now rewrite (Hv s eq_refl).
Qed.

Lemma add_links_of_missing_id_witness :
  add_links (fun _ => EmptyString) (convert_me_id (PList [PStr "other"; PInt 3]))
            "https://digitallibrary.un.org/record/"
  = "https://digitallibrary.un.org/record/None".
Proof.
  apply (@add_links_of_missing_id (fun _ => EmptyString) [PStr "other"; PInt 3]
           "https://digitallibrary.un.org/record/").
  repeat constructor; intros s [= <-]; reflexivity.
Defined.

(** ** Query compiler: different rules, different selectors *)

(** The part of the selector after the tag. *)
Lemma query_shape (e : FieldSpec) :
  query (get_query e)
  = "datafield[@tag='" ++ field e
    ++ String apostrophe
         (String "]"
            ((match effective_ind1 e with
              | Some i => "[@ind1='" ++ i ++ String apostrophe "]"
              | None => EmptyString
              end)
             ++ match code e with
                | Some c => "/subfield[@code='" ++ c ++ String apostrophe "]"
                | None => EmptyString
                end)).
Proof.
  unfold get_query, field_selector, effective_ind1, truthy, fmt. simpl.
  destruct (ind1 e) as [i|]; [destruct (String.eqb i EmptyString)|];
    destruct (code e) as [c|]; simpl;
    try destruct (String.eqb c EmptyString); simpl;
    repeat (rewrite append_assoc; simpl); reflexivity.
Qed.



(** ** Record extractor: the shape of a value *)



(** ** Query compiler: injectivity *)

Lemma code_step_injective (c1 c2 : option string) :
  free c1 -> free c2 -> code_step c1 = code_step c2 -> c1 = c2.
Proof.
  intros F1 F2. destruct c1 as [c1|], c2 as [c2|]; simpl; try discriminate; [|reflexivity].
  intros [= H].
  destruct (@split_at_char apostrophe c1 c2 _ _ (F1 _ eq_refl) (F2 _ eq_refl) H) as [-> _].
  reflexivity.
Qed.

Lemma steps_injective (i1 i2 c1 c2 : option string) :
  free i1 -> free i2 -> free c1 -> free c2 ->
  indicator_step i1 ++ code_step c1 = indicator_step i2 ++ code_step c2 ->
  i1 = i2 /\ c1 = c2.
Proof.
  intros Fi1 Fi2 Fc1 Fc2.
  destruct i1 as [i1|], i2 as [i2|]; simpl.
  - rewrite !append_assoc. simpl. intros [= H].
    destruct (@split_at_char apostrophe i1 i2 _ _ (Fi1 _ eq_refl) (Fi2 _ eq_refl) H)
      as [-> [= Hc]].
    split; [reflexivity | now apply code_step_injective].
  - destruct c2; simpl; discriminate.
  - destruct c1; simpl; discriminate.
  - intro H. split; [reflexivity | now apply code_step_injective].
Qed.

Lemma effective_ind1_free (e : FieldSpec) : quote_free e -> free (effective_ind1 e).
Proof.
  intros (_ & Hi & _) s. unfold effective_ind1.
  destruct (truthy (ind1 e)); [apply Hi | discriminate].
Qed.

(** X8: for rules whose tag, indicator and code hold no apostrophe, the
    selector tells the rule: equal selectors come from equal tags, equal
    codes (absent and empty kept apart) and equal first indicators, where
    an empty indicator counts as none. *)
Theorem get_query_injective (e1 e2 : FieldSpec) :
  quote_free e1 -> quote_free e2 ->
  query (get_query e1) = query (get_query e2) ->
  field e1 = field e2
  /\ effective_ind1 e1 = effective_ind1 e2
  /\ code e1 = code e2.
Proof.
  intros Q1 Q2. rewrite !query_shape.
  fold (indicator_step (effective_ind1 e1)) (indicator_step (effective_ind1 e2)).
  fold (code_step (code e1)) (code_step (code e2)).
  intro H. apply append_injective_l in H.
  destruct Q1 as (Hf1 & Hi1 & Hc1) eqn:E1. destruct Q2 as (Hf2 & Hi2 & Hc2) eqn:E2.
  destruct (@split_at_char apostrophe (field e1) (field e2) _ _ Hf1 Hf2 H) as [Hf [= Hrest]].
  split; [exact Hf|].
  apply steps_injective in Hrest; try assumption.
  - now apply effective_ind1_free.
  - now apply effective_ind1_free.
Qed.

(** With an apostrophe in the tag two different rules have one selector. *)
Lemma get_query_collision :
  query (get_query (rule "245'][@ind1='1" "field" None None "a"))
  = query (get_query (rule "245" "field" None (Some "1") "a")).
Proof. reflexivity. Qed.

Lemma get_query_injective_witness :
  field (rule "245" "field" None (Some EmptyString) "a")
  = field (rule "245" "subfield" None None "b")
  /\ effective_ind1 (rule "245" "field" None (Some EmptyString) "a")
     = effective_ind1 (rule "245" "subfield" None None "b")
  /\ code (rule "245" "field" None (Some EmptyString) "a")
     = code (rule "245" "subfield" None None "b").
Proof.
  apply (@get_query_injective (rule "245" "field" None (Some EmptyString) "a")
                              (rule "245" "subfield" None None "b")).
  - repeat split; simpl; try reflexivity; intros s [= <-]; reflexivity.
  - repeat split; simpl; try reflexivity; intros s; discriminate.
  - reflexivity.
Defined.

(** ** Record extractor: keys of the result, and failure *)

Lemma keys_set_present (k : string) (v : PyVal) (d : dict string PyVal) :
  In k (map fst d) -> map fst (dict_set String.eqb k v d) = map fst d.
Proof.
  induction d as [|[k' v'] d IH]; simpl; [easy|].
  destruct (String.eqb k k') eqn:E; simpl; [reflexivity|].
  intros [H|H]; [apply String.eqb_neq in E; congruence|]. now rewrite IH.
Qed.

Lemma keys_set_absent (k : string) (v : PyVal) (d : dict string PyVal) :
  ~ In k (map fst d) -> map fst (dict_set String.eqb k v d) = (map fst d ++ [k])%list.
Proof.
  induction d as [|[k' v'] d IH]; simpl; [reflexivity|].
  intro H. destruct (String.eqb k k') eqn:E; simpl.
  - apply String.eqb_eq in E. subst. tauto.
  - rewrite IH by tauto. reflexivity.
Qed.

Lemma keys_set (k : string) (v : PyVal) (d : dict string PyVal) :
  NoDup (map fst d) ->
  NoDup (map fst (dict_set String.eqb k v d))
  /\ (exists more, map fst (dict_set String.eqb k v d) = (map fst d ++ more)%list)
  /\ forall x, In x (map fst (dict_set String.eqb k v d)) <-> In x (map fst d) \/ x = k.
Proof.
  intro Hd. destruct (in_dec string_dec k (map fst d)) as [Hin|Hout].
  - rewrite (keys_set_present k v d Hin). repeat split.
    + exact Hd.
    + exists []. now rewrite app_nil_r.
    + tauto.
    + intros [H| ->]; assumption.
  - rewrite (keys_set_absent k v d Hout). repeat split.
    + apply NoDup_app; [exact Hd | repeat constructor; easy |].
      intros x Hx [<-|[]]. contradiction.
    + now exists [k].
    + intro H. apply in_app_or in H as [H|[<-|[]]]; tauto.
    + intros [H| ->]; apply in_or_app; [now left | right; now left].
Qed.

Section ExtractorKeys.

Variable findall : Element -> string -> outcome (list Element).
Variable record : Element.

Lemma extract_loop_keys (elements : list CompiledQuery) :
forall d d',
  NoDup (map fst d) ->
  extract_loop findall record elements d = Return d' ->
  NoDup (map fst d')
  /\ (exists more, map fst d' = (map fst d ++ more)%list)
  /\ forall x, In x (map fst d') <->
               In x (map fst d) \/ In x (map (fun e => name (spec e)) elements).
Proof.
induction elements as [|e rest IH]; intros d d' Hd; simpl.
- intros [= <-]. repeat split; [exact Hd | exists []; now rewrite app_nil_r | tauto |].
  intros [H|[]]. exact H.
- destruct (extract_value findall record e) as [v|]; simpl; [|discriminate].
  intro H.
  destruct (keys_set (name (spec e)) v d Hd) as (Hnd & [more Hmore] & Hin).
  destruct (IH _ _ Hnd H) as (Hnd' & [more' Hmore'] & Hin').
  repeat split.
  + exact Hnd'.
  + exists (more ++ more')%list. rewrite Hmore', Hmore. now rewrite app_assoc.
  + intro Hx. apply Hin' in Hx as [Hx|Hx]; [apply Hin in Hx as [Hx| ->]|]; tauto.
  + intros [Hx|[<-|Hx]]; apply Hin'; [left; apply Hin | left; apply Hin | right]; tauto.
Qed.

(** X9: the dictionary that [extract_xml] returns has "undl_id" as its
    first key, no key twice, and as keys "undl_id" and the names of the
    rules, nothing else. *)
Theorem extract_xml_keys (elements : list FieldSpec) :
(exists cs, findall record "controlfield[@tag='001']" = Return cs) ->
Forall (answers findall record) (map get_query elements) ->
exists d,
  extract_xml findall record elements = Return d
  /\ (exists more, map fst d = "undl_id" :: more)
  /\ NoDup (map fst d)
  /\ forall k, In k (map fst d) <-> k = "undl_id" \/ In k (map name elements).
Proof.
intros [cs Hcs] Hall. unfold extract_xml, find. rewrite Hcs. simpl.
match goal with
| |- exists d, extract_loop _ _ _ ?d0 = _ /\ _ =>
    destruct (extract_loop_returns Hall d0) as [d Hd];
    assert (Hnd : NoDup (map fst d0)) by (repeat constructor; easy);
    destruct (extract_loop_keys _ _ _ Hnd Hd) as (Hnd' & [more Hmore] & Hin)
end.
exists d. split; [exact Hd|]. repeat split.
- now exists more.
- exact Hnd'.
- intro H. apply Hin in H as [[<-|[]]|H]; [now left|].
  right. rewrite map_map in H. exact H.
- intros [->|H]; apply Hin; [left; now left|].
  right. rewrite map_map. exact H.
Qed.

(** X10: when the library refuses the selector of one rule, with its
    exception, [extract_xml] ends with that exception and returns no
    dictionary, whatever the rules before it have matched. *)
Theorem extract_xml_propagates (before : list FieldSpec) (e : FieldSpec)
        (after : list FieldSpec) (ex : exn) :
(exists cs, findall record "controlfield[@tag='001']" = Return cs) ->
Forall (answers findall record) (map get_query before) ->
findall record (query (get_query e)) = Raise ex ->
extract_xml findall record (before ++ e :: after) = Raise ex.
Proof.
intros [cs Hcs] Hall He. unfold extract_xml, find. rewrite Hcs. simpl.
rewrite map_app. simpl.
match goal with |- extract_loop _ _ _ ?d0 = _ => generalize d0 end.
induction Hall as [|b bs [ms Hms] _ IH]; intro d; simpl.
- unfold extract_value. now rewrite He.
- rewrite (@extract_value_shaped findall record b ms Hms). simpl. apply IH.
Qed.

End ExtractorKeys.

(** ** Paginated fetcher: what one call does *)

Section FetcherEffects.

Variable server : nat -> Request -> Reply.
Variable key : string.
Variable xmltodict_parse : string -> outcome PyVal.
Variable json : Response -> option PyVal.

Lemma finish_inv (status total : option Z) (records : PyVal)
      (error : option string) (cursor : PyVal) (w : World)
      (log : Log) (r : PyVal) (w' : World) :
finish status total records error cursor w = Done (log, r) w' ->
w' = w /\ r = records
/\ log_status log = status /\ log_total log = total
/\ log_error log = error /\ log_search_id log = cursor
/\ len records = Return (log_count log).
Proof.
unfold finish. intro H. bind_inv H. unfold ret in H.
injection H as <- <- <-. simpl. repeat split; assumption.
Qed.

Lemma page_inv (r : Response) (error : option string) (w : World)
      (log : Log) (records : PyVal) (w' : World) :
page xmltodict_parse r error w = Done (log, records) w' ->
w' = w
/\ log_status log = Some 200
/\ (exists t, log_total log = Some t)
/\ (log_error log = error \/ log_error log = Some "200: No records")
/\ len records = Return (log_count log).
Proof.
unfold page. intro H. do 7 bind_inv H.
destruct a5; [bind_inv H|]; apply finish_inv in H;
  destruct H as (-> & -> & Hs & Ht & He & _ & Hlen);
  repeat split; try assumption; [now exists a2 | now left | now exists a2 | now right].
Qed.

Ltac finish_leaf H :=
  let Hs := fresh "Hs" in
  let Ht := fresh "Ht" in
  let He := fresh "He" in
  let Hc := fresh "Hc" in
  let Hlen := fresh "Hlen" in
  let Hx := fresh "Hx" in
  apply finish_inv in H; destruct H as (-> & -> & Hs & Ht & He & Hc & Hlen);
  refine (conj Hlen (conj _ (conj _ _)));
  [ intros _; repeat split; assumption
  | intro Hx;
    first [ rewrite Hs in Hx; congruence
          | right; repeat split; try assumption; eexists; exact He ]
  | cbn [sent slept] ].

Ltac page_leaf H :=
  let Hs := fresh "Hs" in
  let Ht := fresh "Ht" in
  let He := fresh "He" in
  let Hlen := fresh "Hlen" in
  let Hx := fresh "Hx" in
  apply page_inv in H; destruct H as (-> & Hs & Ht & He & Hlen);
  refine (conj Hlen (conj _ (conj _ _)));
  [ intro Hx; contradiction
  | intros _; left; exact Ht
  | cbn [sent slept] ].

(** The second attempt, made 300 seconds after an answer 429. *)
Lemma retry_outcome (rq : Request) (w : World)
      (log : Log) (records : PyVal) (w' : World) :
attempt server xmltodict_parse json 1 rq (Some 429) (Some rate_limit_message) w
= Done (log, records) w' ->
len records = Return (log_count log)
/\ (log_status log <> Some 200 ->
    records = PList [] /\ log_total log = None /\ log_search_id log = PNone)
/\ (log_status log = Some 200 ->
    (exists t, log_total log = Some t)
    \/ (records = PList [] /\ log_total log = None /\ log_search_id log = PNone
        /\ exists msg, log_error log = Some msg))
/\ sent w' = (sent w ++ [rq])%list
/\ ((slept w' = slept w /\ log_error log <> None)
    \/ (slept w' = slept w + 300 /\ log_status log = Some 429
        /\ log_error log = Some rate_limit_message)).
Proof.
cbn [attempt]. unfold bindM at 1. unfold requests_get at 1.
destruct (server (length (sent w)) rq) as [r2|msg2|st2 msg2].
- destruct (status_code r2 =? 429) eqn:E2.
  + apply Z.eqb_eq in E2. unfold bindM at 1. unfold sleep at 1. cbn [sent slept].
    intro H. finish_leaf H. split; [reflexivity|]. right. repeat split; congruence.
  + destruct (negb (status_code r2 =? 200)) eqn:E200.
    * apply negb_true_iff in E200. apply Z.eqb_neq in E200.
      destruct (json r2); intro H; finish_leaf H; (split; [reflexivity|]);
        left; split; [reflexivity | congruence | reflexivity | congruence].
    * intro H. page_leaf H. split; [reflexivity|]. left. split; [reflexivity|].
      destruct He as [-> | ->]; discriminate.
- intro H. finish_leaf H. split; [reflexivity|]. left. split; [reflexivity | congruence].
- destruct (st2 =? 429) eqn:E2.
  + apply Z.eqb_eq in E2. unfold bindM at 1. unfold sleep at 1. cbn [sent slept].
    intro H. finish_leaf H. split; [reflexivity|]. right. repeat split; congruence.
  + apply Z.eqb_neq in E2.
    intro H. finish_leaf H. split; [reflexivity|]. left. split; [reflexivity | congruence].
Qed.

(** Everything a call that returns has done. *)
Lemma undl_request_outcome (parameters : Params) (w : World)
      (parameters' : Params) (log : Log) (records : PyVal) (w' : World) :
undl_request server (Return key) xmltodict_parse json parameters w
= Done (parameters', (log, records)) w' ->
let rq := json_request (with_format parameters) key in
parameters' = with_format parameters
/\ len records = Return (log_count log)
/\ (log_status log <> Some 200 ->
    records = PList [] /\ log_total log = None /\ log_search_id log = PNone)
/\ (log_status log = Some 200 ->
    (exists t, log_total log = Some t)
    \/ (records = PList [] /\ log_total log = None /\ log_search_id log = PNone
        /\ exists msg, log_error log = Some msg))
/\ ((sent w' = (sent w ++ [rq])%list /\ slept w' = slept w)
    \/ (sent w' = (sent w ++ [rq; rq])%list /\ slept w' = slept w + 300
        /\ log_error log <> None)
    \/ (sent w' = (sent w ++ [rq; rq])%list /\ slept w' = slept w + 600
        /\ log_status log = Some 429
        /\ log_error log = Some rate_limit_message)).
Proof.
cbv beta iota zeta delta [undl_request bindM lift ret].
destruct (attempt server xmltodict_parse json 2
                  (json_request (with_format parameters) key) None None w)
  as [[log0 records0] w0| |] eqn:H; try discriminate.
intros [= <- <- <- <-]. split; [reflexivity|].
revert H. cbn [attempt]. unfold bindM at 1. unfold requests_get at 1.
set (rq := json_request (with_format parameters) key).
assert (Hretry :
  attempt server xmltodict_parse json 1 rq (Some 429) (Some rate_limit_message)
          {| sent := sent w ++ [rq]; slept := slept w + 300 |}
  = Done (log0, records0) w0 ->
  len records0 = Return (log_count log0)
  /\ (log_status log0 <> Some 200 ->
      records0 = PList [] /\ log_total log0 = None /\ log_search_id log0 = PNone)
  /\ (log_status log0 = Some 200 ->
      (exists t, log_total log0 = Some t)
      \/ (records0 = PList [] /\ log_total log0 = None /\ log_search_id log0 = PNone
          /\ exists msg, log_error log0 = Some msg))
  /\ ((sent w0 = (sent w ++ [rq])%list /\ slept w0 = slept w)
      \/ (sent w0 = (sent w ++ [rq; rq])%list /\ slept w0 = slept w + 300
          /\ log_error log0 <> None)
      \/ (sent w0 = (sent w ++ [rq; rq])%list /\ slept w0 = slept w + 600
          /\ log_status log0 = Some 429
          /\ log_error log0 = Some rate_limit_message))).
{ intro H. apply retry_outcome in H. cbn [sent slept] in H.
  destruct H as (Hlen & Hbad & Hok & Hsent & Hslept).
  rewrite <- app_assoc in Hsent. cbn [app] in Hsent.
  repeat (split; [assumption|]).
  destruct Hslept as [(Hz & He) | (Hz & Hst & He)]; right; [left | right];
    repeat split; try assumption; lia. }
destruct (server (length (sent w)) rq) as [r1|msg1|st1 msg1].
- destruct (status_code r1 =? 429) eqn:E1.
  + apply Z.eqb_eq in E1. rewrite E1.
    unfold bindM at 1. unfold sleep at 1. cbn [sent slept].
    intro H. apply Hretry. exact H.
  + destruct (negb (status_code r1 =? 200)) eqn:E200.
    * apply negb_true_iff in E200. apply Z.eqb_neq in E200.
      destruct (json r1); intro H; finish_leaf H; left; now split.
    * intro H. page_leaf H. left. now split.
- intro H. finish_leaf H. left. now split.
- destruct (st1 =? 429) eqn:E1.
  + apply Z.eqb_eq in E1. rewrite E1.
    unfold bindM at 1. unfold sleep at 1. cbn [sent slept].
    intro H. apply Hretry. exact H.
  + intro H. finish_leaf H. left. now split.
Qed.

(** X12: a call of [undl_request] that returns has left the format in the
    parameters and has sent one request, or the same request twice, and
    has slept 0, 300 or 600 seconds, 600 only with the status 429 in its
    log. *)
Theorem undl_request_requests (parameters : Params) (w : World)
        (parameters' : Params) (log : Log) (records : PyVal) (w' : World) :
undl_request server (Return key) xmltodict_parse json parameters w
= Done (parameters', (log, records)) w' ->
let rq := json_request (with_format parameters) key in
parameters' = with_format parameters
/\ (sent w' = (sent w ++ [rq])%list \/ sent w' = (sent w ++ [rq; rq])%list)
/\ (slept w' = slept w \/ slept w' = slept w + 300
    \/ (slept w' = slept w + 600 /\ log_status log = Some 429)).
Proof.
intro H. apply undl_request_outcome in H. cbv zeta in H.
destruct H as (Hp & _ & _ & _ & [(Hs & Hz) | [(Hs & Hz & _) | (Hs & Hz & Hst & _)]]);
  cbv zeta; (split; [exact Hp|]); split; tauto.
Qed.

(** X13: in the result of [undl_request] the count of the log is the
    length of the records; a status other than 200 comes with no record,
    no total and no cursor; the status 200 comes with a total, or, when the
    body of the answer could not be read, with no record, no total, no
    cursor and the message of the exception as the error. *)
Theorem undl_request_result (parameters : Params) (w : World)
        (parameters' : Params) (log : Log) (records : PyVal) (w' : World) :
undl_request server (Return key) xmltodict_parse json parameters w
= Done (parameters', (log, records)) w' ->
len records = Return (log_count log)
/\ (log_status log <> Some 200 ->
    records = PList [] /\ log_total log = None /\ log_search_id log = PNone)
/\ (log_status log = Some 200 ->
    (exists t, log_total log = Some t)
    \/ (records = PList [] /\ log_total log = None /\ log_search_id log = PNone
        /\ exists msg, log_error log = Some msg)).
Proof.
intro H. apply undl_request_outcome in H. cbv zeta in H.
destruct H as (_ & Hlen & Hbad & Hok & _). repeat split; try assumption; now apply Hbad.
Qed.

(** X14: the answer 429 and then a page: the call returns the page with
    its records after the same request sent twice and 300 seconds, and the
    log keeps the message of the rate limit as its error. *)
Theorem undl_request_page_after_retry (parameters : Params) (w : World)
        (r1 r2 : Response) (total cursor : PyVal) (records : list PyVal) (n : Z) :
let rq := json_request (with_format parameters) key in
server (length (sent w)) rq = Answer r1 -> status_code r1 = 429 ->
server (S (length (sent w))) rq = Answer r2 -> status_code r2 = 200 ->
xmltodict_parse (body r2) = Return (envelope total cursor (PList records)) ->
int total = Return n ->
undl_request server (Return key) xmltodict_parse json parameters w
= Done (with_format parameters,
        ({| log_status := Some 200; log_total := Some n;
            log_count := Z.of_nat (length records);
            log_error := Some rate_limit_message; log_search_id := cursor |},
         PList records))
       {| sent := sent w ++ [rq; rq]; slept := slept w + 300 |}.
Proof.
intros rq H1 Hs1 H2 Hs2 Hp Hn. subst rq.
cbv beta iota zeta delta [undl_request bindM lift ret].
cbn [attempt]. unfold bindM at 1. unfold requests_get at 1.
rewrite H1, Hs1. cbn [Z.eqb Pos.eqb].
unfold bindM at 1. unfold sleep at 1. unfold bindM at 1. unfold requests_get at 1.
cbn [sent slept]. rewrite length_app. cbn [length]. rewrite Nat.add_1_r.
rewrite H2, Hs2. cbn [Z.eqb Pos.eqb negb].
unfold page, bindM, lift. rewrite Hp. simpl. rewrite Hn. simpl.
rewrite <- app_assoc. reflexivity.
Qed.

(** X15: when the network fails at the first request, with a message,
    [undl_request] does not raise: it returns no record and a log without
    status, total and cursor, whose error is the message. *)
Theorem undl_request_network_failure (parameters : Params) (w : World) (msg : string) :
let rq := json_request (with_format parameters) key in
server (length (sent w)) rq = NoAnswer msg ->
undl_request server (Return key) xmltodict_parse json parameters w
= Done (with_format parameters,
        ({| log_status := None; log_total := None; log_count := 0;
            log_error := Some msg; log_search_id := PNone |},
         PList []))
       {| sent := sent w ++ [rq]; slept := slept w |}.
Proof.
intros rq H. subst rq.
cbv beta iota zeta delta [undl_request bindM lift ret].
cbn [attempt]. unfold bindM at 1. unfold requests_get at 1.
rewrite H. reflexivity.
Qed.

(** The same when the answer breaks off after its status, which is not
    429: the exception of [r.text] or [r.json()] is caught, and the log has
    the status, no total, no cursor, and the message as its error. *)
Lemma undl_request_body_unread (parameters : Params) (w : World)
      (status : Z) (msg : string) :
let rq := json_request (with_format parameters) key in
server (length (sent w)) rq = Broken status msg -> status <> 429 ->
undl_request server (Return key) xmltodict_parse json parameters w
= Done (with_format parameters,
        ({| log_status := Some status; log_total := None; log_count := 0;
            log_error := Some msg; log_search_id := PNone |},
         PList []))
       {| sent := sent w ++ [rq]; slept := slept w |}.
Proof.
intros rq H Hs. subst rq. apply Z.eqb_neq in Hs.
cbv beta iota zeta delta [undl_request bindM lift ret].
cbn [attempt]. unfold bindM at 1. unfold requests_get at 1.
rewrite H, Hs. reflexivity.
Qed.

(** X16: a response with status 200 whose body the decoder refuses, with
    an exception: [undl_request] ends with that exception after its one
    request; the body that does not parse is not turned into an error of
    the log. *)
Theorem undl_request_decoder_exception (parameters : Params) (w : World)
        (r : Response) (ex : exn) :
let rq := json_request (with_format parameters) key in
server (length (sent w)) rq = Answer r -> status_code r = 200 ->
xmltodict_parse (body r) = Raise ex ->
undl_request server (Return key) xmltodict_parse json parameters w
= Failed ex {| sent := sent w ++ [rq]; slept := slept w |}.
Proof.
intros rq H Hs Hp. subst rq.
cbv beta iota zeta delta [undl_request bindM lift ret].
cbn [attempt]. unfold bindM at 1. unfold requests_get at 1.
rewrite H, Hs. cbn [Z.eqb Pos.eqb negb].
unfold page, bindM, lift. rewrite Hp. reflexivity.
Qed.

(** X17: a page with status 200 whose collection has no record entry: the
    log has the total and the cursor of the page, the count 0 and the
    error "200: No records". *)
Theorem undl_request_no_records (parameters : Params) (w : World)
        (r : Response) (total cursor collection : PyVal) (n : Z) :
let rq := json_request (with_format parameters) key in
server (length (sent w)) rq = Answer r -> status_code r = 200 ->
xmltodict_parse (body r)
= Return (PDict [(Some "response",
                  PDict [(Some "total", total); (Some "search_id", cursor);
                         (Some "collection", collection)])]) ->
int total = Return n ->
contains "record" collection = Return false ->
undl_request server (Return key) xmltodict_parse json parameters w
= Done (with_format parameters,
        ({| log_status := Some 200; log_total := Some n; log_count := 0;
            log_error := Some "200: No records"; log_search_id := cursor |},
         PList []))
       {| sent := sent w ++ [rq]; slept := slept w |}.
Proof.
intros rq H Hs Hp Hn Hc. subst rq.
cbv beta iota zeta delta [undl_request bindM lift ret].
cbn [attempt]. unfold bindM at 1. unfold requests_get at 1.
rewrite H, Hs. cbn [Z.eqb Pos.eqb negb].
unfold page, bindM, lift. rewrite Hp. simpl. rewrite Hn. simpl.
rewrite Hc. reflexivity.
Qed.

End FetcherEffects.

(** ** Batch driver: when it returns and when it does not *)

Lemma first_total_snoc (logs : list Log) (log : Log) :
  first_total (logs ++ [log])
  = match first_total logs with
    | Some t => Some t
    | None => log_total log
    end.
Proof.
  induction logs as [|l logs IH]; simpl.
  - now destruct (log_total log).
  - destruct (log_total l); [reflexivity | exact IH].
Qed.

Lemma sum_counts_snoc (logs : list Log) (log : Log) :
  sum_counts (logs ++ [log]) = sum_counts logs + log_count log.
Proof.
  unfold sum_counts. induction logs as [|l logs IH]; simpl; lia.
Qed.

Lemma chars_length (s : string) : length (chars s) = String.length s.
Proof.
  induction s as [|c s IH]; simpl; [reflexivity | now rewrite IH].
Qed.

(** What [len] counts is what [extend] appends. *)
Lemma len_iter (v : PyVal) (n : Z) (items : list PyVal) :
  len v = Return n -> iter v = Return items -> n = Z.of_nat (length items).
Proof.
  destruct v; simpl; try discriminate; intros [= <-] [= <-].
  - now rewrite chars_length.
  - reflexivity.
  - now rewrite length_map.
Qed.

Section DriverReturns.

Variable undl_request : Params -> M (Params * (Log * PyVal)).

Lemma json_loop_post (check : Z) (fuel : nat) :
forall (search_parameters : Params) (all_records : list PyVal) (logs : list Log)
       (w : World) (logs' : list Log) (all_records' : list PyVal) (w' : World),
  json_loop undl_request fuel check search_parameters all_records
            (first_total logs) logs w
  = Done (logs', all_records') w' ->
  first_total logs' = Some (Z.of_nat (length all_records')).
Proof.
induction fuel as [|fuel IH]; intros sp all logs w logs' all' w'.
- cbn [json_loop]. unfold ret, reached.
  destruct (first_total logs) as [t|] eqn:Et; [|discriminate].
  destruct (Z.of_nat (length all) =? t) eqn:E; [|discriminate].
  apply Z.eqb_eq in E. intros [= <- <- _]. now rewrite Et, E.
- rewrite json_loop_step. unfold reached at 1.
  destruct (first_total logs) as [t|] eqn:Et.
  + destruct (Z.of_nat (length all) =? t) eqn:E.
    * apply Z.eqb_eq in E. intros [= <- <- _]. now rewrite Et, E.
    * destruct (undl_request sp w) as [[sp' [log records]] w1| |]; try discriminate.
      destruct (iter records) as [items|e]; [|discriminate].
      destruct (check =? 0); [discriminate|].
      replace (Some t) with (first_total (logs ++ [log]))
        by (rewrite first_total_snoc; now rewrite Et).
      apply IH.
  + destruct (undl_request sp w) as [[sp' [log records]] w1| |]; try discriminate.
    destruct (iter records) as [items|e]; [|discriminate].
    destruct (check =? 0); [discriminate|].
    replace (log_total log) with (first_total (logs ++ [log]))
      by (rewrite first_total_snoc; now rewrite Et).
    apply IH.
Qed.

(** X18: whenever [get_records_json] returns, whatever the fetcher, some
    log reports a total and the number of records returned is the first
    total reported: it returns nothing less and nothing more. *)
Theorem get_records_json_returns_first_total
        (fuel : nat) (parameters : Params) (check : Z) (w : World)
        (logs : list Log) (all_records : list PyVal) (w' : World) :
get_records_json undl_request fuel parameters check w = Done (logs, all_records) w' ->
first_total logs = Some (Z.of_nat (length all_records)).
Proof.
unfold get_records_json. intro H.
exact (json_loop_post check fuel parameters [] [] w logs all_records w' H).
Qed.

Lemma json_loop_without_total (check : Z) (fuel : nat) :
(forall p w p' log records w',
    undl_request p w = Done (p', (log, records)) w' -> log_total log = None) ->
forall (search_parameters : Params) (all_records : list PyVal) (logs : list Log)
       (w : World) (res : list Log * list PyVal) (w' : World),
  json_loop undl_request fuel check search_parameters all_records None logs w
  <> Done res w'.
Proof.
intro Hnone. induction fuel as [|fuel IH]; intros sp all logs w res w'.
- cbn [json_loop reached]. discriminate.
- rewrite json_loop_step. cbn [reached].
  destruct (undl_request sp w) as [[sp' [log records]] w1| |] eqn:E; try discriminate.
  destruct (iter records) as [items|e]; [|discriminate].
  destruct (check =? 0); [discriminate|].
  rewrite (Hnone _ _ _ _ _ _ E). apply IH.
Qed.

(** X19: with a fetcher none of whose results reports a total, as when
    every request fails, [get_records_json] does not return, however long
    it runs: it ends with an exception or goes on calling the fetcher. *)
Theorem get_records_json_needs_a_total
        (fuel : nat) (parameters : Params) (check : Z) (w : World)
        (res : list Log * list PyVal) (w' : World) :
(forall p w p' log records w',
    undl_request p w = Done (p', (log, records)) w' -> log_total log = None) ->
get_records_json undl_request fuel parameters check w <> Done res w'.
Proof.
intro Hnone. unfold get_records_json.
now apply json_loop_without_total.
Qed.

End DriverReturns.

Section DriverCounts.

Variable server : nat -> Request -> Reply.
Variable key : string.
Variable xmltodict_parse : string -> outcome PyVal.
Variable json : Response -> option PyVal.

Lemma json_loop_counts (check : Z) (fuel : nat) :
forall (search_parameters : Params) (all_records : list PyVal) (total : option Z)
       (logs : list Log) (w : World)
       (logs' : list Log) (all_records' : list PyVal) (w' : World),
  Z.of_nat (length all_records) = sum_counts logs ->
  json_loop (undl_request server (Return key) xmltodict_parse json) fuel check
            search_parameters all_records total logs w
  = Done (logs', all_records') w' ->
  Z.of_nat (length all_records') = sum_counts logs'.
Proof.
induction fuel as [|fuel IH]; intros sp all total logs w logs' all' w' Hinv.
- cbn [json_loop]. unfold ret. destruct (reached all total); [|discriminate].
  now intros [= <- <- _].
- rewrite json_loop_step. destruct (reached all total).
  + now intros [= <- <- _].
  + destruct (undl_request server (Return key) xmltodict_parse json sp w)
      as [[sp' [log records]] w1| |] eqn:E; try discriminate.
    destruct (iter records) as [items|e] eqn:Ei; [|discriminate].
    destruct (check =? 0); [discriminate|].
    apply IH. rewrite length_app, Nat2Z.inj_add, sum_counts_snoc, Hinv.
    apply undl_request_outcome in E. cbv zeta in E. destruct E as (_ & Hlen & _).
    now rewrite (len_iter records (log_count log) items Hlen Ei).
Qed.

(** X20: with [undl_request] as its fetcher, [get_records_json] returns as
    many records as the counts of its logs add up to. *)
Theorem get_records_json_counts
        (fuel : nat) (parameters : Params) (check : Z) (w : World)
        (logs : list Log) (all_records : list PyVal) (w' : World) :
get_records_json (undl_request server (Return key) xmltodict_parse json)
                 fuel parameters check w
= Done (logs, all_records) w' ->
Z.of_nat (length all_records) = sum_counts logs.
Proof.
unfold get_records_json. intro H.
exact (json_loop_counts check fuel parameters [] None [] w logs all_records w'
                        eq_refl H).
Qed.

End DriverCounts.

(** X11: without credential, when [get_key] raises, nothing is sent: the
    exception ends [undl_request], with it [get_records_json], and
    [get_records_xml] when it is called without key. *)
Theorem no_request_without_credential
        (server : nat -> Request -> Reply)
        (xmltodict_parse : string -> outcome PyVal) (json : Response -> option PyVal)
        (fromstring : string -> option Element)
        (findall : Element -> string -> outcome (list Element))
        (ex : exn) (parameters : Params) (check : Z) (fuel : nat) (w : World) :
  undl_request server (Raise ex) xmltodict_parse json parameters w = Failed ex w
  /\ get_records_json (undl_request server (Raise ex) xmltodict_parse json)
                      (S fuel) parameters check w = Failed ex w
  /\ get_records_xml server (Raise ex) fromstring findall fuel parameters None check w
     = Failed ex w.
Proof. repeat split. Qed.

(** ** XML retrieval: the tree returned, and its records *)

Lemma bindM_inv (A B : Type) (c : M A) (k : A -> M B)
      (w : World) (res : B) (w' : World) :
  bindM c k w = Done res w' ->
  exists a w1, c w = Done a w1 /\ k a w1 = Done res w'.
Proof.
  unfold bindM. destruct (c w) as [a w1| |]; try discriminate.
  intro H. now exists a, w1.
Qed.

Ltac bindM_inv H :=
  let a := fresh "a" in
  let w1 := fresh "w" in
  let E := fresh "E" in
  apply bindM_inv in H; destruct H as (a & w1 & E & H).

Section XmlTree.

Variable server : nat -> Request -> Reply.
Variable get_key : outcome string.
Variable fromstring : string -> option Element.
Variable findall : Element -> string -> outcome (list Element).

(** What the library selects for the path [record] are elements of that
    tag. *)
Hypothesis findall_record :
  forall c ms, findall c "record" = Return ms ->
               Forall (fun m => tag m = "record") ms.

Lemma xml_page_records (r : Response) (check : Z) (total : option string)
      (all_records : list Element) (w : World)
      (search_id' total' : option string) (all_records' : list Element) (w' : World) :
xml_page fromstring findall r check total all_records w
= Done (Some (search_id', total', all_records')) w' ->
Forall (fun m => tag m = "record") all_records ->
Forall (fun m => tag m = "record") all_records'.
Proof.
unfold xml_page. destruct (fromstring _) as [response|]; [|discriminate].
intro H. do 4 bindM_inv H.
destruct a2 as [[tg at_ tx [|c0 cs0]]|]; try discriminate.
bindM_inv H. bindM_inv H. unfold ret in H. injection H as _ _ <- _.
intro Hall. apply Forall_app. split; [exact Hall|].
unfold lift in E3. destruct (findall _ "record") as [ms|] eqn:Ef; [|discriminate].
unfold ret in E3. injection E3 as <- _. exact (findall_record _ _ Ef).
Qed.

Lemma xml_loop_records (check : Z) (parameters : Params) (api_key : string)
      (fuel : nat) :
forall (params : Params) (search_id total : option string)
       (all_records : list Element) (w : World)
       (out : list Element) (w' : World),
  xml_loop server fromstring findall fuel parameters api_key check params
           search_id total all_records w = Done out w' ->
  Forall (fun m => tag m = "record") all_records ->
  Forall (fun m => tag m = "record") out.
Proof.
induction fuel as [|fuel IH]; intros params sid total all w out w'; [discriminate|].
cbn [xml_loop]. intro H. bindM_inv H. bindM_inv H.
destruct a0 as [[[sid' total'] all']|].
- intro Hall. apply (IH _ _ _ _ _ _ _ H).
  destruct (negb (status_code a =? 200)).
  + destruct (status_code a =? 429); [|discriminate].
    bindM_inv E0. bindM_inv E0.
    exact (xml_page_records _ _ _ _ _ _ _ _ _ E0 Hall).
  + exact (xml_page_records _ _ _ _ _ _ _ _ _ E0 Hall).
- unfold ret in H. now injection H as <- _.
Qed.

(** X23: the tree that [get_records_xml] returns has the root tag
    collection, and all its children are record elements. *)
Theorem get_records_xml_tree (fuel : nat) (parameters : Params)
        (api_key : option string) (check : Z) (w : World)
        (tree : Element) (w' : World) :
get_records_xml server get_key fromstring findall fuel parameters api_key check w
= Done tree w' ->
tag tree = "collection"
/\ Forall (fun m => tag m = "record") (children tree).
Proof.
unfold get_records_xml. intro H. bindM_inv H. bindM_inv H.
unfold ret in H. injection H as <- _. split; [reflexivity|].
cbn [children]. apply (xml_loop_records _ _ _ _ _ _ _ _ _ _ _ E0). constructor.
Qed.

End XmlTree.

Lemma filter_record_tag (l : list Element) :
  Forall (fun m => tag m = "record") l ->
  filter (ElementPath.matches {| ElementPath.step_tag := "record";
                                 ElementPath.step_preds := [] |}) l = l.
Proof.
  induction 1 as [|m l Hm _ IH]; [reflexivity|].
  simpl. unfold ElementPath.matches at 1. simpl. rewrite Hm. simpl. now rewrite IH.
Qed.

Lemma findall_record_children (tree : Element) :
  ElementPath.findall tree "record"
  = Return (filter (ElementPath.matches {| ElementPath.step_tag := "record";
                                           ElementPath.step_preds := [] |})
                   (children tree)).
Proof.
  unfold ElementPath.findall. simpl. now rewrite app_nil_r.
Qed.

Lemma filter_matches_tag (l : list Element) :
  Forall (fun m => tag m = "record")
         (filter (ElementPath.matches {| ElementPath.step_tag := "record";
                                         ElementPath.step_preds := [] |}) l).
Proof.
  induction l as [|m l IH]; simpl; [constructor|].
  destruct (ElementPath.matches _ m) eqn:E; [|exact IH].
  constructor; [|exact IH].
  unfold ElementPath.matches in E. simpl in E.
  apply andb_true_iff in E as [E _]. now apply String.eqb_eq in E.
Qed.

Lemma elementpath_record (c : Element) (ms : list Element) :
  ElementPath.findall c "record" = Return ms ->
  Forall (fun m => tag m = "record") ms.
Proof.
  rewrite findall_record_children. intros [= <-]. apply filter_matches_tag.
Qed.

(** X24: with the path engine of this file on both sides and a
    serialization that the parser of lxml reads back, [convert_lxml] on the
    tree of [get_records_xml] returns the records of that tree, all of them
    and in their order. *)
Theorem convert_lxml_of_get_records_xml
        (server : nat -> Request -> Reply) (get_key : outcome string)
        (fromstring : string -> option Element)
        (tostring : Element -> string)
        (lxml_fromstring : string -> outcome Element)
        (fuel : nat) (parameters : Params) (api_key : option string) (check : Z)
        (w : World) (tree : Element) (w' : World) :
  get_records_xml server get_key fromstring ElementPath.findall
                  fuel parameters api_key check w = Done tree w' ->
  lxml_fromstring (tostring tree) = Return tree ->
  convert_lxml tostring lxml_fromstring ElementPath.findall tree
  = Return (children tree).
Proof.
  intros H Hround. unfold convert_lxml. rewrite Hround. simpl.
  rewrite findall_record_children. f_equal. apply filter_record_tag.
  unfold get_records_xml in H. bindM_inv H. bindM_inv H.
  unfold ret in H. injection H as <- _. cbn [children].
  apply (xml_loop_records server fromstring ElementPath.findall elementpath_record
                          _ _ _ _ _ _ _ _ _ _ _ E0).
  constructor.
Qed.

Section XmlFailure.

Variable server : nat -> Request -> Reply.
Variable get_key : outcome string.
Variable fromstring : string -> option Element.
Variable findall : Element -> string -> outcome (list Element).

(** X22: when the network fails at a request of [get_records_xml], here
    the first, the exception of the network ends the retrieval: no tree is
    returned. *)
Theorem get_records_xml_network_failure
        (fuel : nat) (parameters : Params) (key : string) (check : Z)
        (w : World) (msg : string) :
let rq := xml_request parameters key in
server (length (sent w)) rq = NoAnswer msg ->
get_records_xml server get_key fromstring findall (S fuel) parameters (Some key) check w
= Failed (RequestException msg) {| sent := sent w ++ [rq]; slept := slept w |}.
Proof.
intros rq H. subst rq.
unfold get_records_xml. cbv beta iota delta [bindM ret]. cbn [xml_loop truthy].
unfold bindM at 1. unfold get_or_raise at 1. unfold bindM at 1.
unfold requests_get at 1. rewrite H. reflexivity.
Qed.

End XmlFailure.

(** ** Instances *)

Lemma extract_xml_keys_witness :
  exists d,
    extract_xml ElementPath.findall record42
      [rule "245" "field" None None "title";
       rule "999" "field" None None "local";
       rule "245" "subfield" (Some "a") None "title"] = Return d
    /\ (exists more, map fst d = "undl_id" :: more)
    /\ NoDup (map fst d)
    /\ forall k, In k (map fst d) <->
                 k = "undl_id" \/ In k ["title"; "local"; "title"].
Proof.
  apply (extract_xml_keys ElementPath.findall record42
           [rule "245" "field" None None "title";
            rule "999" "field" None None "local";
            rule "245" "subfield" (Some "a") None "title"]).
  - eexists. reflexivity.
  - repeat constructor; eexists; reflexivity.
Defined.

Lemma extract_xml_propagates_witness :
  extract_xml ElementPath.findall record42
    ([rule "245" "field" None None "title"]
       ++ rule "24'5" "field" None None "broken"
       :: [rule "999" "field" None None "local"])
  = Raise SyntaxError.
Proof.
  apply (extract_xml_propagates ElementPath.findall record42
           [rule "245" "field" None None "title"]
           (rule "24'5" "field" None None "broken")
           [rule "999" "field" None None "local"] SyntaxError).
  - eexists. reflexivity.
  - repeat constructor; eexists; reflexivity.
  - reflexivity.
Defined.

Lemma undl_request_requests_witness :
  let rq := json_request (with_format water) "token" in
  with_format water = with_format water
  /\ (sent retried_world = (sent start ++ [rq])%list
      \/ sent retried_world = (sent start ++ [rq; rq])%list)
  /\ (slept retried_world = slept start \/ slept retried_world = slept start + 300
      \/ (slept retried_world = slept start + 600 /\ log_status retried_log = Some 429)).
Proof.
  apply (undl_request_requests
           (script [status_only 429 "Too Many Requests"; ok "page 1"]) "token"
           pages_2_1_0 json_of water start (with_format water) retried_log
           (PList [raw "1"; raw "2"]) retried_world).
  reflexivity.
Defined.

(** The status 200 without a total: the answer broke off before its body. *)
Lemma undl_request_result_witness :
  len (PList []) = Return (log_count unread_log)
  /\ (log_status unread_log <> Some 200 ->
      PList [] = PList []
      /\ log_total unread_log = None /\ log_search_id unread_log = PNone)
  /\ (log_status unread_log = Some 200 ->
      (exists t, log_total unread_log = Some t)
      \/ (PList [] = PList [] /\ log_total unread_log = None
          /\ log_search_id unread_log = PNone
          /\ exists msg, log_error unread_log = Some msg)).
Proof.
  apply (undl_request_result cut_off "token" pages_2_1_0 json_of water start
           (with_format water) unread_log (PList [])
           {| sent := [json_request (with_format water) "token"]; slept := 0 |}).
  reflexivity.
Defined.

Lemma undl_request_page_after_retry_witness :
  undl_request (script [status_only 429 "Too Many Requests"; ok "page 1"]) (Return "token")
               pages_2_1_0 json_of water start
  = Done (with_format water, (retried_log, PList [raw "1"; raw "2"])) retried_world.
Proof.
  apply (undl_request_page_after_retry
           (script [status_only 429 "Too Many Requests"; ok "page 1"]) "token"
           pages_2_1_0 json_of water start
           {| status_code := 429; body := "Too Many Requests" |}
           {| status_code := 200; body := "page 1" |}
           (PStr "3") (PStr "c1") [raw "1"; raw "2"] 3); reflexivity.
Defined.

Lemma undl_request_network_failure_witness :
  undl_request unreachable (Return "token") pages_2_1_0 json_of water start
  = Done (with_format water,
          ({| log_status := None; log_total := None; log_count := 0;
              log_error := Some "connection refused"; log_search_id := PNone |},
           PList []))
         {| sent := [json_request (with_format water) "token"]; slept := 0 |}.
Proof.
  apply (undl_request_network_failure unreachable "token" pages_2_1_0 json_of
           water start "connection refused").
  reflexivity.
Defined.

Lemma undl_request_decoder_exception_witness :
  undl_request (script [ok "<html>"]) (Return "token") pages_2_1_0 json_of water start
  = Failed ExpatError
           {| sent := [json_request (with_format water) "token"]; slept := 0 |}.
Proof.
  apply (undl_request_decoder_exception (script [ok "<html>"]) "token"
           pages_2_1_0 json_of water start
           {| status_code := 200; body := "<html>" |} ExpatError); reflexivity.
Defined.

Lemma undl_request_no_records_witness :
  undl_request (script [ok "page 3"]) (Return "token") pages_2_1_0 json_of water start
  = Done (with_format water,
          ({| log_status := Some 200; log_total := Some 3; log_count := 0;
              log_error := Some "200: No records"; log_search_id := PStr "c3" |},
           PList []))
         {| sent := [json_request (with_format water) "token"]; slept := 0 |}.
Proof.
  apply (undl_request_no_records (script [ok "page 3"]) "token"
           pages_2_1_0 json_of water start
           {| status_code := 200; body := "page 3" |}
           (PStr "3") (PStr "c3") (PDict [(Some "@xmlns", PStr "slim")]) 3);
    reflexivity.
Defined.

Lemma get_records_json_returns_first_total_witness :
  first_total [page_log 6 2 None "c1"; page_log 6 2 None "c2"; page_log 6 2 None "c3"]
  = Some (Z.of_nat (length [raw "1"; raw "2"; raw "3"; raw "4"; raw "5"; raw "6"])).
Proof.
  eapply (get_records_json_returns_first_total
            (undl_request (script [ok "page 1"; ok "page 2"; ok "page 3"])
                          (Return "token") pages_2_2_2 json_of)
            5 water 1000 start).
  vm_compute. reflexivity.
Defined.

Lemma get_records_json_needs_a_total_witness :
  get_records_json (undl_request unreachable (Return "token") pages_2_1_0 json_of)
                   7 water 1000 start
  <> Done ([], []) start.
Proof.
  apply (get_records_json_needs_a_total
           (undl_request unreachable (Return "token") pages_2_1_0 json_of)).
  intros p w p' log records w' H.
  cbv beta iota zeta delta [undl_request bindM lift ret] in H.
  cbn [attempt] in H. unfold bindM, requests_get, unreachable, finish in H.
  simpl in H. unfold ret in H. now injection H as _ <- _ _.
Defined.

Lemma get_records_json_counts_witness :
  Z.of_nat (length [raw "1"; raw "2"; raw "3"; raw "4"; raw "5"; raw "6"])
  = sum_counts [page_log 6 2 None "c1"; page_log 6 2 None "c2"; page_log 6 2 None "c3"].
Proof.
  eapply (get_records_json_counts
            (script [ok "page 1"; ok "page 2"; ok "page 3"]) "token"
            pages_2_2_2 json_of 5 water 1000 start).
  vm_compute. reflexivity.
Defined.

Lemma get_records_xml_network_failure_witness :
  get_records_xml unreachable (Raise FileNotFoundError) trees_2_2_2 ElementPath.findall
                  3 water (Some "token") 1000 start
  = Failed (RequestException "connection refused")
           {| sent := [xml_request water "token"]; slept := 0 |}.
Proof.
  apply (get_records_xml_network_failure unreachable (Raise FileNotFoundError)
           trees_2_2_2 ElementPath.findall 2 water "token" 1000 start
           "connection refused").
  reflexivity.
Defined.

Lemma get_records_xml_tree_witness :
  tag (Elem "collection" [] None
            [marc "1" []; marc "2" []; marc "3" []; marc "4" []; marc "5" []; marc "6" []])
  = "collection"
  /\ Forall (fun m => tag m = "record")
            (children (Elem "collection" [] None
                            [marc "1" []; marc "2" []; marc "3" [];
                             marc "4" []; marc "5" []; marc "6" []])).
Proof.
  eapply (get_records_xml_tree
            (script [ok "page 1"; ok "page 2"; ok "page 3"; ok "page 4"])
            (Return "token") trees_2_2_2 ElementPath.findall elementpath_record
            5 water None 1000 start).
  vm_compute. reflexivity.
Defined.

Lemma convert_lxml_of_get_records_xml_witness :
  convert_lxml (fun _ => "<collection>")
               (fun _ => Return (Elem "collection" [] None [marc "1" []; marc "2" []]))
               ElementPath.findall
               (Elem "collection" [] None [marc "1" []; marc "2" []])
  = Return (children (Elem "collection" [] None [marc "1" []; marc "2" []])).
Proof.
  eapply (convert_lxml_of_get_records_xml
            (script [ok "page 1"; ok "page 4"]) (Return "token") trees_2_2_2
            (fun _ => "<collection>")
            (fun _ => Return (Elem "collection" [] None [marc "1" []; marc "2" []]))
            5 water None 1000 start).
  - vm_compute. reflexivity.
  - reflexivity.
Defined.

(** After the first of three pages of two records: the two requests that
    follow both carry the cursor c1, while the pages bring c2 and c3. *)
Lemma json_loop_same_request_witness :
  (exists n,
     sent (world_after
             (json_loop (undl_request (script [ok "page 1"; ok "page 2"; ok "page 3"])
                                      (Return "token") pages_2_2_2 json_of)
                        5 1000 (with_format first_cursor) [raw "1"; raw "2"]
                        (Some 6) [page_log 6 2 None "c1"] after_first_page))
     = (sent after_first_page
        ++ repeat (json_request (with_format first_cursor) "token") n)%list)
  /\ sent (world_after
             (json_loop (undl_request (script [ok "page 1"; ok "page 2"; ok "page 3"])
                                      (Return "token") pages_2_2_2 json_of)
                        5 1000 (with_format first_cursor) [raw "1"; raw "2"]
                        (Some 6) [page_log 6 2 None "c1"] after_first_page))
     = [json_request (with_format water) "token";
        json_request first_cursor "token";
        json_request first_cursor "token"].
Proof.
  split.
  - apply (@json_loop_same_request
             (script [ok "page 1"; ok "page 2"; ok "page 3"]) "token"
             pages_2_2_2 json_of 1000 5 first_cursor [raw "1"; raw "2"] 6
             [page_log 6 2 None "c1"] after_first_page).
  - vm_compute. reflexivity.
Defined.

Lemma undl_request_rate_limited_witness :
  undl_request (script [status_only 429 "Too Many Requests";
                        status_only 429 "Too Many Requests"])
               (Return "token") pages_2_1_0 json_of water start
  = Done (with_format water,
          ({| log_status := Some 429; log_total := None; log_count := 0;
              log_error := Some rate_limit_message; log_search_id := PNone |},
           PList []))
         {| sent := [json_request (with_format water) "token";
                     json_request (with_format water) "token"];
            slept := 600 |}.
Proof.
  apply (@undl_request_rate_limited
           (script [status_only 429 "Too Many Requests";
                    status_only 429 "Too Many Requests"])
           "token" pages_2_1_0 json_of water
           {| status_code := 429; body := "Too Many Requests" |}
           {| status_code := 429; body := "Too Many Requests" |}); reflexivity.
Defined.

Lemma undl_request_other_status_witness :
  undl_request (script [status_only 500 error_body]) (Return "token")
               pages_2_1_0 json_of water start
  = Done (with_format water,
          ({| log_status := Some 500; log_total := None; log_count := 0;
              log_error := None; log_search_id := PNone |},
           PList []))
         {| sent := [json_request (with_format water) "token"]; slept := 0 |}.
Proof.
  apply (@undl_request_other_status
           (script [status_only 500 error_body]) "token" pages_2_1_0 json_of water
           {| status_code := 500; body := error_body |}
           (PDict [(Some "message", PStr "Internal Server Error")]));
    try reflexivity; discriminate.
Defined.

Lemma undl_request_missing_cursor_witness :
  undl_request (script [ok "no cursor"]) (Return "token")
               page_without_cursor json_of water start
  = Done (with_format water,
          ({| log_status := Some 200; log_total := Some 2;
              log_count := Z.of_nat (length [raw "1"; raw "2"]);
              log_error := None; log_search_id := PNone |},
           PList [raw "1"; raw "2"]))
         {| sent := [json_request (with_format water) "token"]; slept := 0 |}.
Proof.
  apply (@undl_request_missing_cursor
           (script [ok "no cursor"]) "token" page_without_cursor json_of water
           {| status_code := 200; body := "no cursor" |}
           (PStr "2") 2 [raw "1"; raw "2"]); reflexivity.
Defined.

Lemma get_records_xml_second_status_unread_witness :
  get_records_xml (script [status_only 429 "Too Many Requests";
                           status_only 503 "Service Unavailable"])
                  (Return "token") trees_2_2_2 ElementPath.findall
                  3 water None 1000 start
  = Done (Elem "collection" [] None [])
         {| sent := [xml_request water "token"; xml_request water "token"];
            slept := 300 |}.
Proof.
  apply (@get_records_xml_second_status_unread
           (script [status_only 429 "Too Many Requests";
                    status_only 503 "Service Unavailable"])
           "token" trees_2_2_2 ElementPath.findall water 1000 2
           {| status_code := 429; body := "Too Many Requests" |}
           {| status_code := 503; body := "Service Unavailable" |}); reflexivity.
Defined.

Lemma get_records_xml_missing_cursor_witness :
  get_records_xml (script [ok "no result"]) (Return "token")
                  tree_without_cursor ElementPath.findall 3 water None 1000 start
  = Failed AttributeError {| sent := [xml_request water "token"]; slept := 0 |}.
Proof.
  apply (@get_records_xml_missing_cursor
           (script [ok "no result"]) "token" tree_without_cursor ElementPath.findall
           water 1000 2 {| status_code := 200; body := "no result" |}
           (Elem "response" [] None [leaf "total" "0"; Elem "collection" [] None []]));
    reflexivity.
Defined.

Lemma code_value_distinct_witness :
  code_value (Elem "datafield" [("tag", "245")] None [subfield "a" "x"; subfield "b" "y"])
  = PDict (map code_text
               (xpath_subfields
                  (Elem "datafield" [("tag", "245")] None
                        [subfield "a" "x"; subfield "b" "y"]))).
Proof.
  apply (@code_value_distinct
           (Elem "datafield" [("tag", "245")] None [subfield "a" "x"; subfield "b" "y"])).
  repeat constructor; simpl; intuition discriminate.
Defined.
